(** * The AI-Guided SaaS MCP server: request handlers and start-up

    A shallow embedding of the protocol server of the repository (the
    class [AIGuidedSaaSMCPServer] and the start-up script that follows it):
    the four request handlers registered in the constructor, the JavaScript
    conversions they rely on ([||], optional chaining, template literals,
    [JSON.stringify]) and the start-up sequence with its [catch] handler.

    Request parameters are the values the SDK hands to a handler: [name] and
    [uri] are strings, [arguments] is either absent or an object whose
    property values are arbitrary JSON data. *)

From Stdlib Require Import String Ascii List Bool ZArith.
From Stdlib Require DecimalString.
Import ListNotations.
Open Scope string_scope.

Set Implicit Arguments.

(** ** Strings

    A string is the sequence of bytes of its UTF-8 text; the literals below
    are those of the source file, byte for byte. *)

(** The characters that a string literal here cannot hold directly. *)
Definition nl : string := String (ascii_of_nat 10) EmptyString.
Definition dq : string := String (ascii_of_nat 34) EmptyString.
Definition backslash : string := String (ascii_of_nat 92) EmptyString.

(** [String.prototype.includes]: [needle] occurs in [hay] at some offset. *)
Fixpoint includes (needle hay : string) : bool :=
  prefix needle hay
  || match hay with
     | EmptyString => false
     | String _ rest => includes needle rest
     end.

(** Lines of a multi-line literal, joined by [\n]. *)
Fixpoint lines (l : list string) : string :=
  match l with
  | [] => EmptyString
  | [s] => s
  | s :: rest => s ++ nl ++ lines rest
  end.

(** ** Outcomes

    An evaluation either yields a value or throws.  Every handler is an
    [async] function: its promise is fulfilled with the value it returns and
    rejected with the error thrown while it runs, which is how the two
    constructors are named. *)

Inductive exn : Type :=
| Error (message : string)
| TypeError (message : string).

Inductive outcome (A : Type) : Type :=
| Fulfilled (a : A)
| Rejected (e : exn).

Arguments Fulfilled {A} a.
Arguments Rejected {A} e.

Definition bind {A B : Type} (m : outcome A) (k : A -> outcome B) : outcome B :=
  match m with
  | Fulfilled a => k a
  | Rejected e => Rejected e
  end.

Notation "x <- m ;; k" := (bind m (fun x => k))
  (at level 61, m at next level, right associativity).

Definition fulfilled {A : Type} (m : outcome A) : bool :=
  match m with
  | Fulfilled _ => true
  | Rejected _ => false
  end.

(** ** Descriptors and result shapes *)

Module Property.
Record t : Type := make
  { type : string;
    items : option string;   (* [items: { type }] of an array property *)
    description : string }.
End Property.

Module InputSchema.
Record t : Type := make
  { type : string;
    properties : list (string * Property.t);
    required : list string }.
End InputSchema.

Module Tool.
Record t : Type := make
  { name : string;
    description : string;
    inputSchema : InputSchema.t }.
End Tool.

Module Resource.
Record t : Type := make
  { uri : string;
    name : string;
    description : string;
    mimeType : string }.
End Resource.

Module TextContent.
Record t : Type := make
  { type : string;
    text : string }.
End TextContent.

Module ResourceContents.
Record t : Type := make
  { uri : string;
    mimeType : string;
    text : string }.
End ResourceContents.

Record ListToolsResult : Type := { tools : list Tool.t }.
Record CallToolResult : Type := { content : list TextContent.t }.
Record ListResourcesResult : Type := { resources : list Resource.t }.
Record ReadResourceResult : Type := { contents : list ResourceContents.t }.

(** A list request carries at most a pagination cursor; both list handlers
    are written [async () => ...] and never look at it. *)
Record ListRequest : Type := { cursor : option string }.

Record ReadResourceRequest : Type := { uri : string }.

(** ** Handle tool listing *)

Definition listTools (_ : ListRequest) : outcome ListToolsResult :=
  Fulfilled
    {| tools :=
        [ Tool.make "analyze-code"
            "Analyze code quality and provide improvement suggestions"
            (InputSchema.make "object"
               [ ("code", Property.make "string" None "Code to analyze");
                 ("language", Property.make "string" None "Programming language") ]
               [ "code"; "language" ]);
          Tool.make "generate-tests"
            "Generate unit tests for provided code"
            (InputSchema.make "object"
               [ ("code", Property.make "string" None "Code to generate tests for");
                 ("framework",
                  Property.make "string" None "Testing framework (jest, mocha, etc.)") ]
               [ "code" ]);
          Tool.make "optimize-performance"
            "Analyze and suggest performance optimizations"
            (InputSchema.make "object"
               [ ("code", Property.make "string" None "Code to optimize");
                 ("metrics",
                  Property.make "array" (Some "string") "Specific metrics to focus on") ]
               [ "code" ]) ] |}.

(** ** Handle resource listing *)

Definition listResources (_ : ListRequest) : outcome ListResourcesResult :=
  Fulfilled
    {| resources :=
        [ Resource.make "saas://docs/best-practices"
            "Best Practices Guide"
            "Comprehensive guide for SaaS development best practices"
            "text/markdown";
          Resource.make "saas://templates/api"
            "API Templates"
            "Ready-to-use API endpoint templates"
            "application/json" ] |}.

(** ** The catalogs, as the list handlers advertise them *)

Definition listed_tools : list Tool.t :=
  match listTools {| cursor := None |} with
  | Fulfilled result => result.(tools)
  | Rejected _ => []
  end.

Definition listed_resources : list Resource.t :=
  match listResources {| cursor := None |} with
  | Fulfilled result => result.(resources)
  | Rejected _ => []
  end.

Definition registered_tool_names : list string := map Tool.name listed_tools.

Definition registered_resource_uris : list string :=
  map Resource.uri listed_resources.

(** The [required] list of the input schema advertised for [name]. *)
Definition required_arguments (name : string) : list string :=
  match find (fun tool => Tool.name tool =? name) listed_tools with
  | Some tool => InputSchema.required (Tool.inputSchema tool)
  | None => []
  end.

(** ** Integers as numbers

    A stand-in for the engine's numbers on which the handlers can be run:
    the integers, printed in decimal. *)
Module IntegerNumbers.
Definition isFalsy (n : Z) : bool := Z.eqb n 0.
Definition isFinite (_ : Z) : bool := true.
Definition toString (n : Z) : string :=
  DecimalString.NilZero.string_of_int (Z.to_int n).
End IntegerNumbers.

(** * Scripts around the server: the Git helper, its probes and its callers

    The helpers below drive external programs.  What those programs answer
    is not the repository's business: it is taken from a world that each
    command transforms, and every script is a function of that world which
    yields its result, what it printed and ran, and the world it leaves. *)

(** ** Error objects

    Everything thrown in these scripts is an [Error]: it has a message, and
    an error of [child_process] may carry the captured output streams. *)
Module Thrown.
Record t : Type := make
  { message : string;
    stdout : option string;
    stderr : option string }.
End Thrown.

(** [new Error(message)]. *)
Definition new_Error (message : string) : Thrown.t :=
  Thrown.make message None None.

Inductive color : Type := blue | cyan | green | red | white | yellow.

Inductive action : Type :=
| Log (line : string)
| LogError (line : string) (error : Thrown.t)
| Run (command : string)
| Spawn (file : string) (args : list string).

(** The commands handed to [exec] and [execSync], in order. *)
Fixpoint commands (trace : list action) : list string :=
  match trace with
  | [] => []
  | Run command :: rest => command :: commands rest
  | _ :: rest => commands rest
  end.

Fixpoint spawned (trace : list action) : list (string * list string) :=
  match trace with
  | [] => []
  | Spawn file args :: rest => (file, args) :: spawned rest
  | _ :: rest => spawned rest
  end.

Fixpoint logged_errors (trace : list action) : list Thrown.t :=
  match trace with
  | [] => []
  | LogError _ error :: rest => error :: logged_errors rest
  | _ :: rest => logged_errors rest
  end.

(** The two observations made on a finished run. *)
Definition returned {A W : Type} (run : (Thrown.t + A) * list action * W)
  : Thrown.t + A :=
  fst (fst run).

Definition trace_of {A W : Type} (run : (Thrown.t + A) * list action * W)
  : list action :=
  snd (fst run).

(** How a spawned child settles the promise built around it: its [error]
    event, or its [close] event with the exit code ([null] after a signal). *)
Inductive settled : Type :=
| Errored (error : Thrown.t)
| Closed (code : option Z).

(** [a?.toString() || fallback] *)
Definition text_or (a : option string) (fallback : string) : string :=
  match a with
  | Some s => if s =? EmptyString then fallback else s
  | None => fallback
  end.

(** ** White space

    The code points that [String.prototype.trim] strips, in UTF-8: the
    ASCII controls 9 to 13 and the space; U+00A0; U+1680, U+2000 to U+200A,
    U+2028, U+2029, U+202F, U+205F, U+3000 and U+FEFF. *)
Definition white1 (a : ascii) : bool :=
  let n := nat_of_ascii a in
  (Nat.leb 9 n && Nat.leb n 13) || Nat.eqb n 32.

Definition white2 (a b : ascii) : bool :=
  Nat.eqb (nat_of_ascii a) 194 && Nat.eqb (nat_of_ascii b) 160.

Definition white3 (a b c : ascii) : bool :=
  let x := nat_of_ascii a in
  let y := nat_of_ascii b in
  let z := nat_of_ascii c in
  (Nat.eqb x 225 && Nat.eqb y 154 && Nat.eqb z 128)
  || (Nat.eqb x 226 && Nat.eqb y 128
      && ((Nat.leb 128 z && Nat.leb z 138)
          || Nat.eqb z 168 || Nat.eqb z 169 || Nat.eqb z 175))
  || (Nat.eqb x 226 && Nat.eqb y 129 && Nat.eqb z 159)
  || (Nat.eqb x 227 && Nat.eqb y 128 && Nat.eqb z 128)
  || (Nat.eqb x 239 && Nat.eqb y 187 && Nat.eqb z 191).

(** [String.prototype.trimStart]. *)
Fixpoint trimStart (s : string) : string :=
  match s with
  | EmptyString => s
  | String a rest =>
      if white1 a then trimStart rest
      else
        match rest with
        | EmptyString => s
        | String b rest2 =>
            if white2 a b then trimStart rest2
            else
              match rest2 with
              | EmptyString => s
              | String c rest3 =>
                  if white3 a b c then trimStart rest3 else s
              end
        end
  end.

(** [!s.trim()]: nothing is left of [s] once its white space is stripped,
    which is the case exactly when stripping from the left leaves nothing. *)
Definition blank (s : string) : bool := trimStart s =? EmptyString.

(** A small integer in decimal, as a template literal prints it. *)
Definition decimal (n : nat) : string :=
  DecimalString.NilZero.string_of_uint (Nat.to_uint n).

(** [`${code}`] for the exit code of a child. *)
Definition show_code (code : option Z) : string :=
  match code with
  | None => "null"
  | Some n => DecimalString.NilZero.string_of_int (Z.to_int n)
  end.

Section Scripts.

Variable world : Type.

(** [promisify(child_process.exec)(command)]: the captured [stdout] and
    [stderr] of a command that exits with status 0, the error otherwise. *)
Variable exec : string -> world -> (Thrown.t + string * string) * world.

(** [execSync(command, { stdio: "ignore" })]: returns, or throws. *)
Variable execSync : string -> world -> option Thrown.t * world.

(** [spawn(file, args, { stdio: "inherit", shell: true })], up to the first
    of the child's [error] and [close] events. *)
Variable spawn : string -> list string -> world -> settled * world.

(** [chalk.<color>(text)]. *)
Variable chalk : color -> string -> string.

Definition script (A : Type) : Type :=
  world -> (Thrown.t + A) * list action * world.

Definition pure {A : Type} (a : A) : script A :=
  fun w => (inr a, [], w).

Definition throw {A : Type} (error : Thrown.t) : script A :=
  fun w => (inl error, [], w).

Definition and_then {A B : Type} (m : script A) (k : A -> script B) : script B :=
  fun w =>
    match m w with
    | (inr a, trace, w1) =>
        match k a w1 with
        | (r, trace', w2) => (r, (trace ++ trace')%list, w2)
        end
    | (inl error, trace, w1) => (inl error, trace, w1)
    end.

Definition try_catch {A : Type}
    (body : script A) (handler : Thrown.t -> script A) : script A :=
  fun w =>
    match body w with
    | (inr a, trace, w1) => (inr a, trace, w1)
    | (inl error, trace, w1) =>
        match handler error w1 with
        | (r, trace', w2) => (r, (trace ++ trace')%list, w2)
        end
    end.

Notation "x <~ m ;; k" := (and_then m (fun x => k))
  (at level 61, m at next level, right associativity).
Notation "m ;;; k" := (and_then m (fun _ => k))
  (at level 61, right associativity).

Definition console_log (line : string) : script unit :=
  fun w => (inr tt, [Log line], w).

Definition console_error (line : string) (error : Thrown.t) : script unit :=
  fun w => (inr tt, [LogError line error], w).

Definition run_exec (command : string) : script (string * string) :=
  fun w => let (r, w1) := exec command w in (r, [Run command], w1).

Definition run_execSync (command : string) : script unit :=
  fun w =>
    match execSync command w with
    | (None, w1) => (inr tt, [Run command], w1)
    | (Some error, w1) => (inl error, [Run command], w1)
    end.

Definition run_spawn (file : string) (args : list string) : script settled :=
  fun w => let (r, w1) := spawn file args w in (inr r, [Spawn file args], w1).

Fixpoint for_each {A : Type} (l : list A) (f : A -> script unit) : script unit :=
  match l with
  | [] => pure tt
  | x :: rest => f x ;;; for_each rest f
  end.

(** ** ssh-setup.ts: the two probes *)

Definition checkSSHAgent : script bool :=
  try_catch
    (run_execSync ("ssh-add -l") ;;; pure true)
    (fun _ => pure false).

Definition checkGitHubSSHConnection : script bool :=
  try_catch
    (run_execSync ("ssh -T git@github.com 2>&1") ;;; pure true)
    (fun error =>
       let output :=
         text_or (Thrown.stdout error)
           (text_or (Thrown.stderr error) EmptyString) in
       pure (includes ("successfully authenticated") output)).

(** ** git-helper.ts *)

Definition gitStageCommitPush (commitMessage : string) : script unit :=
  try_catch
    (sshAgentRunning <~ checkSSHAgent ;;
     githubConnected <~ checkGitHubSSHConnection ;;
     if negb sshAgentRunning || negb githubConnected then
       console_log (nl ++ "❌ SSH is not properly configured for GitHub.") ;;;
       console_log ("Please run the SSH setup wizard first: npm run setup-ssh" ++ nl)
     else
       console_log ("📦 Staging all changes...") ;;;
       run_exec ("git add -A") ;;;
       status <~ run_exec ("git status --short") ;;
       let statusOutput := fst status in
       if blank statusOutput then
         console_log ("✅ No changes to commit")
       else
         console_log ("Changes to be committed:") ;;;
         console_log statusOutput ;;;
         console_log (nl ++ "💾 Committing with message: " ++ dq ++ commitMessage ++ dq) ;;;
         run_exec ("git commit -m " ++ dq ++ commitMessage ++ dq) ;;;
         console_log (nl ++ "🚀 Pushing to remote...") ;;;
         push <~ run_exec ("git push") ;;
         console_log (fst push) ;;;
         console_log (nl ++ "✅ Successfully staged, committed, and pushed!"))
    (fun error =>
       console_error ("❌ Git operation failed:") error ;;;
       throw error).

(** ** vercel-helper.ts *)

(** The promise that [vercelDeploy] returns from inside its [try] block is
    not awaited there: when the child settles it, the [catch] block is no
    longer in play. *)
Definition vercelDeploy : script unit :=
  deploy <~
    try_catch
      (try_catch
         (run_exec ("vercel whoami") ;;; pure tt)
         (fun _ =>
            console_log (chalk yellow ("🔐 Not logged in to Vercel. Please run 'vercel login' first.")) ;;;
            throw (new_Error ("Not authenticated with Vercel"))) ;;;
       console_log (chalk cyan ("🚀 Deploying to Vercel...")) ;;;
       run_spawn ("vercel") [ "--prod" ])
      (fun error =>
         console_error (chalk red ("❌ Vercel deployment failed:")) error ;;;
         throw error) ;;
  match deploy with
  | Closed (Some 0%Z) =>
      console_log (chalk green ("✅ Deployment successful!"))
  | Closed code =>
      throw (new_Error ("Deployment failed with code " ++ show_code code))
  | Errored error => throw error
  end.

(** The fixes themselves work on the file system; they are taken as given. *)
Variable attemptCommonFixes : script bool.

Definition deployToVercelWithFixes : script unit :=
  try_catch
    vercelDeploy
    (fun error =>
       console_log (chalk yellow (nl ++ "🔧 Attempting to fix common deployment issues...")) ;;;
       fixed <~ attemptCommonFixes ;;
       if (fixed : bool) then
         console_log (chalk cyan (nl ++ "🔄 Retrying deployment...")) ;;;
         vercelDeploy
       else
         throw error).

(** ** mcp-pipeline.ts *)

(** The scan of the home directory is taken as given. *)
Variable scanForOrphanedFiles : script (list string).

Definition mcpPipelineInitOrUpdate : script unit :=
  console_log (chalk cyan ("🔧 Initializing/Updating MCP Pipeline...")) ;;;
  orphaned <~ scanForOrphanedFiles ;;
  (if Nat.ltb 0 (length orphaned) then
     console_log (chalk yellow ("⚠️  Found " ++ decimal (length orphaned) ++ " orphaned files. Consider moving them into the project."))
   else pure tt) ;;;
  gitStageCommitPush ("Update MCP configuration") ;;;
  deployToVercelWithFixes ;;;
  console_log (chalk green ("✅ MCP Pipeline complete!")).

(** [commitMessage] is [None] when the caller leaves the argument out. *)
Definition runMCPDeploy (commitMessage : option string) : script unit :=
  let commitMessage :=
    match commitMessage with
    | Some message => message
    | None => ("Deploy via MCP")
    end in
  try_catch
    (console_log (chalk blue ("🚀 Starting MCP deployment pipeline...")) ;;;
     orphaned <~ scanForOrphanedFiles ;;
     (if Nat.ltb 0 (length orphaned) then
        console_log (chalk yellow ("⚠️  Found " ++ decimal (length orphaned) ++ " orphaned files outside the project root:")) ;;;
        for_each orphaned (fun file => console_log ("   - " ++ file)) ;;;
        console_log (nl ++ "Consider moving these files into your project before deploying." ++ nl)
      else pure tt) ;;;
     gitStageCommitPush commitMessage ;;;
     deployToVercelWithFixes ;;;
     console_log (chalk green ("🎉 Deployment complete!")))
    (fun error =>
       console_error (chalk red ("❌ Deployment failed:")) error ;;;
       (if includes ("SSH") (Thrown.message error) then
          console_log (chalk yellow (nl ++ "💡 Tip: Make sure your SSH agent is running and GitHub SSH key is added.")) ;;;
          console_log (chalk white ("   Run: eval " ++ dq ++ "$(ssh-agent -s)" ++ dq ++ " && ssh-add ~/.ssh/id_rsa"))
        else pure tt) ;;;
       throw error).

End Scripts.

(** The commands of a complete run of [gitStageCommitPush], in order. *)
Definition git_commands (commitMessage : string) : list string :=
  [ "ssh-add -l";
    "ssh -T git@github.com 2>&1";
    "git add -A";
    "git status --short";
    ("git commit -m " ++ dq ++ commitMessage ++ dq);
    "git push" ].

(** * Telling what kind of project is deployed *)

(** [array.includes(x)] for an array of strings. *)
Definition array_includes (array : list string) (x : string) : bool :=
  existsb (String.eqb x) array.

(** [array.some(test)] *)
Definition array_some {A : Type} (array : list A) (test : A -> bool) : bool :=
  existsb test array.

(** ** project-context.ts

    The three detectors read the keys of the dependency record only. *)
Module ProjectContext.

Definition techMap : list (string * list string) :=
  [ ("React", [ "react"; "react-dom" ]);
    ("Vue", [ "vue" ]);
    ("Angular", [ "@angular/core" ]);
    ("Next.js", [ "next" ]);
    ("Express", [ "express" ]);
    ("Fastify", [ "fastify" ]);
    ("NestJS", [ "@nestjs/core" ]);
    ("TypeScript", [ "typescript" ]);
    ("Tailwind CSS", [ "tailwindcss" ]);
    ("Prisma", [ "prisma"; "@prisma/client" ]);
    ("MongoDB", [ "mongodb"; "mongoose" ]);
    ("PostgreSQL", [ "pg"; "postgres" ]);
    ("Redis", [ "redis"; "ioredis" ]);
    ("GraphQL", [ "graphql"; "apollo-server" ]);
    ("Jest", [ "jest" ]);
    ("Vitest", [ "vitest" ]);
    ("ESLint", [ "eslint" ]);
    ("Prettier", [ "prettier" ]) ].

(** The loop over [Object.entries(techMap)], pushing as it goes. *)
Fixpoint detect (entries : list (string * list string)) (depKeys : list string)
  : list string :=
  match entries with
  | [] => []
  | (tech, packages) :: rest =>
      if array_some packages (fun pkg => array_includes depKeys pkg)
      then tech :: detect rest depKeys
      else detect rest depKeys
  end.

Definition detectTechnologies (depKeys : list string) : list string :=
  detect techMap depKeys.

Definition detectFramework (depKeys : list string) : option string :=
  if array_includes depKeys "next" then Some "Next.js"
  else if array_includes depKeys "gatsby" then Some "Gatsby"
  else if array_includes depKeys "@angular/core" then Some "Angular"
  else if array_includes depKeys "vue" then Some "Vue"
  else if array_includes depKeys "react" then Some "React"
  else if array_includes depKeys "express" then Some "Express"
  else if array_includes depKeys "fastify" then Some "Fastify"
  else if array_includes depKeys "@nestjs/core" then Some "NestJS"
  else None.

Definition detectProjectType (framework : string) : string :=
  let frontendFrameworks := [ "React"; "Vue"; "Angular"; "Next.js"; "Gatsby" ] in
  let backendFrameworks := [ "Express"; "Fastify"; "NestJS" ] in
  if array_includes frontendFrameworks framework then "frontend"
  else if array_includes backendFrameworks framework then "backend"
  else "unknown".

(** What [projectContextScan] records for a package.json whose merged
    dependency record has the keys [depKeys]. *)
Definition scanned_technologies (depKeys : list string) : list string :=
  detectTechnologies depKeys.

Definition scanned_projectType (depKeys : list string) : option string :=
  match detectFramework depKeys with
  | Some framework => Some (detectProjectType framework)
  | None => None
  end.

End ProjectContext.

(** ** deployment-orchestrator.ts *)
Module DeploymentOrchestrator.

Inductive projectType : Type := frontend | backend | fullstack | auto.

(** ASCII letters are lowered by [String.prototype.toLowerCase] as one
    expects; what it does to other characters is left to the engine. *)
Definition lower (c : ascii) : ascii :=
  let n := nat_of_ascii c in
  if Nat.leb 65 n && Nat.leb n 90 then ascii_of_nat (n + 32) else c.

Fixpoint ascii_lower (s : string) : string :=
  match s with
  | EmptyString => EmptyString
  | String c rest => String (lower c) (ascii_lower rest)
  end.

Fixpoint is_ascii (s : string) : bool :=
  match s with
  | EmptyString => true
  | String c rest => Nat.ltb (nat_of_ascii c) 128 && is_ascii rest
  end.

Section Detect.

Variable toLowerCase : string -> string.

(** [context.technologies?.some(...)], in a boolean position. *)
Definition technologies_some
    (technologies : option (list string)) (test : string -> bool) : bool :=
  match technologies with
  | Some array => array_some array test
  | None => false
  end.

(** [detectProjectType], given the [technologies] of the scanned context. *)
Definition detectProjectType (technologies : option (list string)) : projectType :=
  let hasFrontend :=
    technologies_some technologies
      (fun tech =>
         array_includes [ "react"; "vue"; "angular"; "next.js"; "gatsby" ]
           (toLowerCase tech)) in
  let hasBackend :=
    technologies_some technologies
      (fun tech =>
         array_includes [ "express"; "fastify"; "koa"; "nest.js" ]
           (toLowerCase tech)) in
  if hasFrontend && hasBackend then fullstack
  else if hasFrontend then frontend
  else if hasBackend then backend
  else frontend.

End Detect.

End DeploymentOrchestrator.

(** * system-check.ts: versions *)
Module SystemCheck.

(** [\d], without the unicode flag: an ASCII digit. *)
Definition is_digit (c : ascii) : bool :=
  let n := nat_of_ascii c in
  Nat.leb 48 n && Nat.leb n 57.

Definition is_dot (c : ascii) : bool := Nat.eqb (nat_of_ascii c) 46.

(** The longest run of digits at the start of [s], and what follows it:
    what a greedy [\d+] consumes. *)
Fixpoint digits (s : string) : string * string :=
  match s with
  | EmptyString => (EmptyString, EmptyString)
  | String c rest =>
      if is_digit c
      then let (run, after) := digits rest in (String c run, after)
      else (EmptyString, s)
  end.

(** A match of [\d+\.\d+\.\d+] that starts at the first character.  Giving
    back digits never helps: what follows a shorter run is a digit, not the
    dot that is asked for. *)
Definition match_here (s : string) : option string :=
  match digits s with
  | (EmptyString, _) => None
  | (major, String dot1 rest1) =>
      if is_dot dot1 then
        match digits rest1 with
        | (EmptyString, _) => None
        | (minor, String dot2 rest2) =>
            if is_dot dot2 then
              match digits rest2 with
              | (EmptyString, _) => None
              | (patch, _) => Some (major ++ "." ++ minor ++ "." ++ patch)
              end
            else None
        | (_, EmptyString) => None
        end
      else None
  | (_, EmptyString) => None
  end.

(** [versionString.match(/(\d+\.\d+\.\d+)/)]: the leftmost match. *)
Fixpoint extractVersion (versionString : string) : option string :=
  match match_here versionString with
  | Some version => Some version
  | None =>
      match versionString with
      | EmptyString => None
      | String _ rest => extractVersion rest
      end
  end.

(** [s.split(".")] *)
Fixpoint split_dot (s : string) : list string :=
  match s with
  | EmptyString => [ EmptyString ]
  | String c rest =>
      if is_dot c then EmptyString :: split_dot rest
      else
        match split_dot rest with
        | first :: others => String c first :: others
        | [] => [ String c EmptyString ]
        end
  end.

Section Compare.

(** The engine's numbers, with the conversion and the comparisons used. *)
Variable number : Type.
Variable Number : string -> number.
Variable zero : number.
Variable isFalsy : number -> bool.
Variable gt : number -> number -> bool.
Variable lt : number -> number -> bool.

(** [parts[i] || 0] *)
Definition or_zero (part : option number) : number :=
  match part with
  | Some n => if isFalsy n then zero else n
  | None => zero
  end.

(** The loop, [rounds] rounds from the parts not yet compared. *)
Fixpoint compare_from (rounds : nat) (v1Parts v2Parts : list number) : Z :=
  match rounds with
  | O => 0%Z
  | S rounds' =>
      let v1Part := or_zero (hd_error v1Parts) in
      let v2Part := or_zero (hd_error v2Parts) in
      if gt v1Part v2Part then 1%Z
      else if lt v1Part v2Part then (-1)%Z
      else compare_from rounds' (tl v1Parts) (tl v2Parts)
  end.

Definition compareVersions (version1 version2 : string) : Z :=
  let v1Parts := map Number (split_dot version1) in
  let v2Parts := map Number (split_dot version2) in
  compare_from (Nat.max (length v1Parts) (length v2Parts)) v1Parts v2Parts.

End Compare.

End SystemCheck.

(** Vocabulary for the properties of [extractVersion]. *)
Fixpoint all_digits (s : string) : bool :=
  match s with
  | EmptyString => true
  | String c rest => SystemCheck.is_digit c && all_digits rest
  end.

Fixpoint no_digit (s : string) : bool :=
  match s with
  | EmptyString => true
  | String c rest => negb (SystemCheck.is_digit c) && no_digit rest
  end.

(** A non-empty run of digits. *)
Definition numeral (s : string) : bool :=
  all_digits s && negb (s =? EmptyString).

Definition starts_with_digit (s : string) : bool :=
  match s with
  | EmptyString => false
  | String c _ => SystemCheck.is_digit c
  end.

(** ** Decimal numbers

    A stand-in for the engine's numbers on which [compareVersions] can be
    run: a run of digits is read in base ten, anything else as 0. *)
Module DecimalNumbers.

Fixpoint read (value : Z) (s : string) : Z :=
  match s with
  | EmptyString => value
  | String c rest => read (10 * value + Z.of_nat (nat_of_ascii c - 48)) rest
  end.

Definition Number (s : string) : Z :=
  if all_digits s then read 0 s else 0%Z.

Definition isFalsy (n : Z) : bool := Z.eqb n 0.

Definition compareVersions : string -> string -> Z :=
  SystemCheck.compareVersions Number 0%Z isFalsy Z.gtb Z.ltb.

End DecimalNumbers.

(** ** A world with canned answers

    A world on which the scripts can be run: it does not change, and it
    answers each command from a fixed table. *)
Module Canned.

Record t : Type := make
  { agent : option Thrown.t;          (* what [ssh-add -l] throws *)
    github : option Thrown.t;         (* what [ssh -T] throws *)
    failing : list (string * Thrown.t);(* the commands that fail *)
    status : string;                  (* the output of [git status --short] *)
    deploying : settled }.            (* how [vercel --prod] ends *)

Definition failure (table : t) (command : string) : option Thrown.t :=
  match find (fun entry => fst entry =? command) table.(failing) with
  | Some entry => Some (snd entry)
  | None => None
  end.

Definition exec (table : t) (command : string) (w : unit)
  : (Thrown.t + string * string) * unit :=
  match failure table command with
  | Some error => (inl error, w)
  | None =>
      if command =? "git status --short"
      then (inr (table.(status), EmptyString), w)
      else (inr (EmptyString, EmptyString), w)
  end.

Definition execSync (table : t) (command : string) (w : unit)
  : option Thrown.t * unit :=
  if command =? "ssh-add -l" then (table.(agent), w)
  else if command =? "ssh -T git@github.com 2>&1" then (table.(github), w)
  else (failure table command, w).

Definition spawn (table : t) (_ : string) (_ : list string) (w : unit)
  : settled * unit :=
  (table.(deploying), w).

Definition chalk (_ : color) (text : string) : string := text.

(** No fix applies; no orphaned file is found. *)
Definition attemptCommonFixes (w : unit)
  : (Thrown.t + bool) * list action * unit :=
  (inr false, [], w).

Definition scanForOrphanedFiles (w : unit)
  : (Thrown.t + list string) * list action * unit :=
  (inr [], [], w).

(** SSH is not set up: both probes fail, without captured output. *)
Definition offline : t :=
  make (Some (new_Error "Command failed: ssh-add -l"))
       (Some (new_Error "Command failed: ssh -T git@github.com 2>&1"))
       [] " M src/index.ts" (Closed (Some 0%Z)).

(** SSH is set up and the working tree is clean. *)
Definition clean : t :=
  make None None [] (String (ascii_of_nat 10) EmptyString) (Closed (Some 0%Z)).

(** SSH is set up, there is a change, and the push is refused.  The error
    is the one [child_process.exec] builds: its message is the command line
    and, on the next line, what the command wrote to [stderr]. *)
Definition refusal : string :=
  "ERROR: The organization has enabled or enforced SAML SSO. To access this repository, you must use the HTTPS remote with a personal access token or SSH with an SSH key and passphrase that has been authorized for this organization."
  ++ String (ascii_of_nat 10)
       "fatal: Could not read from remote repository."
  ++ String (ascii_of_nat 10) EmptyString.

Definition refused : Thrown.t :=
  Thrown.make
    ("Command failed: git push" ++ String (ascii_of_nat 10) refusal)
    (Some EmptyString) (Some refusal).

(** The same, and the remote hangs up without a word on keys. *)
Definition hung_up : Thrown.t :=
  Thrown.make
    ("Command failed: git push" ++ String (ascii_of_nat 10)
       "fatal: the remote end hung up unexpectedly"
     ++ String (ascii_of_nat 10) EmptyString)
    (Some EmptyString)
    (Some ("fatal: the remote end hung up unexpectedly"
           ++ String (ascii_of_nat 10) EmptyString)).

Definition unpushed : t :=
  make None None [ ("git push", refused) ] " M src/index.ts" (Closed (Some 0%Z)).

Definition cut_off : t :=
  make None None [ ("git push", hung_up) ] " M src/index.ts" (Closed (Some 0%Z)).

(** Everything works. *)
Definition working : t :=
  make None None [] " M src/index.ts" (Closed (Some 0%Z)).

End Canned.

(** A world with one bit of state: is the [.vercel] directory of an earlier
    link still there?  While it is, the deployment closes with code 1; the
    second of the common fixes removes it. *)
Module Relinked.

Definition exec (_ : string) (stale : bool)
  : (Thrown.t + string * string) * bool :=
  (inr (EmptyString, EmptyString), stale).

Definition spawn (_ : string) (_ : list string) (stale : bool)
  : settled * bool :=
  (Closed (Some (if stale then 1%Z else 0%Z)), stale).

Definition attemptCommonFixes (stale : bool)
  : (Thrown.t + bool) * list action * bool :=
  if stale
  then (inr true, [ Log (Canned.chalk yellow ("🧹 Cleaning .vercel directory...")) ], false)
  else (inr false, [], false).

End Relinked.

(** ** JavaScript values

    The numbers of the host engine are taken as given: a type of numbers
    with the three observations the code below makes on them. *)

Section Handlers.

Variable number : Type.
(** [+0], [-0] and [NaN], the numbers that [ToBoolean] sends to [false]. *)
Variable Number_isFalsy : number -> bool.
(** [Number.isFinite]. *)
Variable Number_isFinite : number -> bool.
(** [Number.prototype.toString] in radix 10. *)
Variable Number_toString : number -> string.

(** JSON data as [JSON.parse] builds it.  An object is the list of its own
    properties in insertion order; the first entry for a key is the one a
    property read finds. *)
#[warning="-register-all"]
Inductive value : Type :=
| JNull
| JBoolean (b : bool)
| JNumber (n : number)
| JString (s : string)
| JArray (elements : list value)
| JObject (props : list (string * value)).

Definition object : Type := list (string * value).

(** [o[key]]; [None] stands for [undefined]. *)
Fixpoint get (o : object) (key : string) : option value :=
  match o with
  | [] => None
  | (k, v) :: rest => if k =? key then Some v else get rest key
  end.

Definition hasOwnProperty (o : object) (key : string) : bool :=
  match get o key with
  | Some _ => true
  | None => false
  end.

(** [args?.key] where [args] may be [undefined]. *)
Definition optional_get (args : option object) (key : string) : option value :=
  match args with
  | None => None
  | Some o => get o key
  end.

Definition ToBoolean (v : option value) : bool :=
  match v with
  | None => false
  | Some JNull => false
  | Some (JBoolean b) => b
  | Some (JNumber n) => negb (Number_isFalsy n)
  | Some (JString s) => negb (s =? EmptyString)
  | Some (JArray _) => true
  | Some (JObject _) => true
  end.

(** [v || fallback]: the left operand itself when it is truthy. *)
Definition or_else (v : option value) (fallback : value) : value :=
  match v with
  | Some x => if ToBoolean v then x else fallback
  | None => fallback
  end.

Definition cannot_convert : exn :=
  TypeError "Cannot convert object to primitive value".

(** [ToString].  An array converts through [Array.prototype.join]: its
    elements separated by commas, [null] elements contributing nothing.  A
    plain object converts through the inherited [Object.prototype.toString],
    unless an own property named [toString] hides it: parsed data is never
    callable, and the inherited [valueOf] gives back the object, so the
    conversion throws. *)
Fixpoint ToString (v : value) : outcome string :=
  match v with
  | JNull => Fulfilled "null"
  | JBoolean b => Fulfilled (if b then "true" else "false")
  | JNumber n => Fulfilled (Number_toString n)
  | JString s => Fulfilled s
  | JArray elements =>
      (fix join (l : list value) : outcome string :=
         match l with
         | [] => Fulfilled EmptyString
         | x :: rest =>
             s <- match x with
                  | JNull => Fulfilled EmptyString
                  | _ => ToString x
                  end ;;
             match rest with
             | [] => Fulfilled s
             | _ :: _ => r <- join rest ;; Fulfilled (s ++ "," ++ r)
             end
         end) elements
  | JObject props =>
      if hasOwnProperty props "toString"
      then Rejected cannot_convert
      else Fulfilled "[object Object]"
  end.

(** ** Handle tool execution *)

Record CallToolRequest : Type :=
  { name : string;
    arguments : option object }.

Definition text_content (s : string) : CallToolResult :=
  {| content := [ TextContent.make "text" s ] |}.

Definition callTool (request : CallToolRequest) : outcome CallToolResult :=
  let name := request.(name) in
  let args := request.(arguments) in
  if name =? "analyze-code" then
    language <- ToString (or_else (optional_get args "language") (JString "unknown")) ;;
    Fulfilled (text_content
      ("Analyzing " ++ language ++ " code..." ++ nl ++ nl
       ++ "Code Quality Report:" ++ nl
       ++ "- Structure: Good" ++ nl
       ++ "- Readability: Excellent" ++ nl
       ++ "- Suggestions: Consider adding type annotations"))
  else if name =? "generate-tests" then
    let framework := or_else (optional_get args "framework") (JString "jest") in
    framework <- ToString framework ;;
    Fulfilled (text_content
      ("Generated " ++ framework ++ " tests:" ++ nl
       ++ "```javascript" ++ nl
       ++ "describe('YourFunction', () => {" ++ nl
       ++ "  it('should work correctly', () => {" ++ nl
       ++ "    expect(yourFunction()).toBe(expected);" ++ nl
       ++ "  });" ++ nl
       ++ "});" ++ nl
       ++ "```"))
  else if name =? "optimize-performance" then
    Fulfilled (text_content
      ("Performance Analysis:" ++ nl
       ++ "- Current complexity: O(nÂ²)" ++ nl
       ++ "- Suggested optimization: Use Map for O(1) lookups" ++ nl
       ++ "- Potential improvement: 70% faster execution"))
  else
    Rejected (Error ("Unknown tool: " ++ name)).

(** ** [JSON.stringify] *)

Definition hex_digit (n : nat) : string := substring n 1 "0123456789abcdef".

(** [QuoteJSONString], one character at a time. *)
Definition QuoteJSONChar (c : ascii) : string :=
  let n := nat_of_ascii c in
  if Nat.eqb n 8 then backslash ++ "b"
  else if Nat.eqb n 9 then backslash ++ "t"
  else if Nat.eqb n 10 then backslash ++ "n"
  else if Nat.eqb n 12 then backslash ++ "f"
  else if Nat.eqb n 13 then backslash ++ "r"
  else if Nat.eqb n 34 then backslash ++ dq
  else if Nat.eqb n 92 then backslash ++ backslash
  else if Nat.ltb n 32 then
    backslash ++ "u00" ++ hex_digit (Nat.div n 16) ++ hex_digit (Nat.modulo n 16)
  else String c EmptyString.

Fixpoint QuoteJSONChars (s : string) : string :=
  match s with
  | EmptyString => EmptyString
  | String c rest => QuoteJSONChar c ++ QuoteJSONChars rest
  end.

Definition QuoteJSONString (s : string) : string :=
  dq ++ QuoteJSONChars s ++ dq.

(** The brackets around the serialized members of an array or object. *)
Definition wrap (opening closing gap stepback indent : string)
    (partial : list string) : string :=
  match partial with
  | [] => opening ++ closing
  | _ :: _ =>
      if gap =? EmptyString
      then opening ++ String.concat "," partial ++ closing
      else opening ++ nl ++ indent
           ++ String.concat ("," ++ nl ++ indent) partial
           ++ nl ++ stepback ++ closing
  end.

Fixpoint SerializeJSONProperty (gap indent : string) (v : value) : string :=
  match v with
  | JNull => "null"
  | JBoolean b => if b then "true" else "false"
  | JNumber n => if Number_isFinite n then Number_toString n else "null"
  | JString s => QuoteJSONString s
  | JArray elements =>
      let stepback := indent in
      let indent := indent ++ gap in
      wrap "[" "]" gap stepback indent
        ((fix members (l : list value) : list string :=
            match l with
            | [] => []
            | x :: rest => SerializeJSONProperty gap indent x :: members rest
            end) elements)
  | JObject props =>
      let stepback := indent in
      let indent := indent ++ gap in
      wrap "{" "}" gap stepback indent
        ((fix members (l : list (string * value)) : list string :=
            match l with
            | [] => []
            | (k, x) :: rest =>
                (QuoteJSONString k ++ ":"
                 ++ (if gap =? EmptyString then EmptyString else " ")
                 ++ SerializeJSONProperty gap indent x) :: members rest
            end) props)
  end.

Fixpoint spaces (n : nat) : string :=
  match n with
  | O => EmptyString
  | S m => " " ++ spaces m
  end.

(** [JSON.stringify(v, null, space)] for a numeric [space]. *)
Definition JSON_stringify (v : value) (space : nat) : string :=
  SerializeJSONProperty (spaces (Nat.min 10 space)) EmptyString v.

(** ** Handle resource reading *)

Definition endpoint (method path description : string) : value :=
  JObject [ ("method", JString method);
            ("path", JString path);
            ("description", JString description) ].

Definition readResource (request : ReadResourceRequest) : outcome ReadResourceResult :=
  let uri := request.(uri) in
  if uri =? "saas://docs/best-practices" then
    Fulfilled
      {| contents :=
          [ ResourceContents.make uri "text/markdown"
              ("# SaaS Best Practices" ++ nl ++ nl
               ++ "1. **Security First**: Always validate input" ++ nl
               ++ "2. **Scalability**: Design for growth" ++ nl
               ++ "3. **Testing**: Maintain >80% coverage") ] |}
  else if uri =? "saas://templates/api" then
    Fulfilled
      {| contents :=
          [ ResourceContents.make uri "application/json"
              (JSON_stringify
                 (JObject
                    [ ("endpoints",
                       JArray [ endpoint "GET" "/api/users" "List users";
                                endpoint "POST" "/api/users" "Create user" ]) ])
                 2) ] |}
  else
    Rejected (Error ("Unknown resource: " ++ uri)).

(** ** Initialize and start the server

    What the process does to the outside world, in order. *)
Inductive effect : Type :=
| ConsoleLog (line : string)
| ConsoleError (message : string) (error : exn)
| ProcessExit (code : Z).

(** The start-up script, given how the promise of [server.connect(transport)]
    settles.  The three [console.log] calls run synchronously; the [catch]
    callback runs afterwards, when the promise has been rejected. *)
Definition main (connect : outcome unit) : list effect :=
  [ ConsoleLog "ðŸš€ AI-Guided SaaS MCP Server is running";
    ConsoleLog "Available tools: analyze-code, generate-tests, optimize-performance";
    ConsoleLog "Available resources: saas://docs/best-practices, saas://templates/api" ]
  ++ match connect with
     | Fulfilled _ => []
     | Rejected error =>
         [ ConsoleError "Failed to start AI-Guided SaaS MCP server:" error;
           ProcessExit 1 ]
     end.

(** The status the process ends with: the code given to the first
    [process.exit]; a Node process that runs out of work without one, and
    without ever assigning [process.exitCode], ends with status 0.  The
    request handlers above perform no effect of their own, so the trace of
    [main] is the whole trace of the process. *)
Fixpoint exit_status (trace : list effect) : Z :=
  match trace with
  | [] => 0%Z
  | ProcessExit code :: _ => code
  | _ :: rest => exit_status rest
  end.


(** ** Vocabulary of the properties *)

(** Every argument that the advertised schema of the tool requires is a
    property of the argument mapping. *)
Definition has_required_arguments (request : CallToolRequest) : bool :=
  forallb
    (fun key =>
       match optional_get request.(arguments) key with
       | Some _ => true
       | None => false
       end)
    (required_arguments request.(name)).

(** The argument that the handler of a tool splices into its template. *)
Definition template_argument (name : string) : option string :=
  if name =? "analyze-code" then Some "language"
  else if name =? "generate-tests" then Some "framework"
  else None.

(** The spliced argument, when the request supplies it, converts to a
    string. *)
Definition template_argument_converts (request : CallToolRequest) : bool :=
  match template_argument request.(name) with
  | None => true
  | Some key =>
      match optional_get request.(arguments) key with
      | None => true
      | Some v => fulfilled (ToString v)
      end
  end.

(** Strings, numbers, booleans and [null]. *)
Definition primitive (v : value) : bool :=
  match v with
  | JArray _ | JObject _ => false
  | _ => true
  end.

Unset Implicit Arguments.

(** * Properties *)

(** ** Strings *)

Lemma includes_unfold (needle hay : string) :
  includes needle hay
  = (prefix needle hay
     || match hay with
        | EmptyString => false
        | String _ rest => includes needle rest
        end).
Proof. destruct hay; reflexivity. Qed.

Lemma prefix_app (s t : string) : prefix s (s ++ t) = true.
Proof.
  induction s as [|c s IH]; simpl.
  - now destruct t.
  - destruct (ascii_dec c c) as [_|ne]; [exact IH | now elim ne].
Qed.

Lemma prefix_cancel (s t u : string) : prefix (s ++ t) (s ++ u) = prefix t u.
Proof.
  induction s as [|c s IH]; simpl.
  - reflexivity.
  - destruct (ascii_dec c c) as [_|ne]; [exact IH | now elim ne].
Qed.

Lemma includes_app (pre s post : string) :
  includes s (pre ++ s ++ post) = true.
Proof.
  induction pre as [|c pre IH]; simpl.
  - now rewrite includes_unfold, prefix_app.
  - rewrite IH. apply orb_true_r.
Qed.

Lemma includes_empty (hay : string) : includes EmptyString hay = true.
Proof. rewrite includes_unfold. now destruct hay. Qed.

(** ** Conversions *)

Lemma ToString_primitive (v : value) :
  primitive v = true -> fulfilled (ToString v) = true.
Proof. destruct v as [|[]| | | |]; simpl; congruence. Qed.

Lemma or_else_converts (v : value) (fallback : string) :
  fulfilled (ToString v) = true ->
  fulfilled (ToString (or_else (Some v) (JString fallback))) = true.
Proof.
  intros Hv. unfold or_else. now destruct (ToBoolean (Some v)).
Qed.

Lemma or_else_string (s fallback : string) :
  or_else (Some (JString s)) (JString fallback)
  = JString (if s =? EmptyString then fallback else s).
Proof.
  unfold or_else, ToBoolean. now destruct (s =? EmptyString).
Qed.

Lemma fulfilled_inv {A : Type} (m : outcome A) :
  fulfilled m = true -> exists a, m = Fulfilled a.
Proof. destruct m; simpl; [eauto | discriminate]. Qed.

(** ** Dispatch *)

Lemma registered_tool_names_eq :
  registered_tool_names
  = ["analyze-code"; "generate-tests"; "optimize-performance"].
Proof. reflexivity. Qed.

Lemma registered_resource_uris_eq :
  registered_resource_uris
  = ["saas://docs/best-practices"; "saas://templates/api"].
Proof. reflexivity. Qed.

(** A registered tool answers with one text block as soon as the argument it
    splices into its report converts to a string. *)
Lemma callTool_registered (request : CallToolRequest) :
  In request.(name) registered_tool_names ->
  template_argument_converts request = true ->
  exists report, callTool request = Fulfilled (text_content report).
Proof.
  destruct request as [name args].
  unfold template_argument_converts, callTool. simpl.
  intros [<-|[<-|[<-|[]]]]; simpl.
  - destruct (optional_get args "language") as [v|]; intros Hv.
    + apply (or_else_converts v "unknown"), fulfilled_inv in Hv.
      destruct Hv as [s ->]. simpl. eauto.
    + simpl. eauto.
  - destruct (optional_get args "framework") as [v|]; intros Hv.
    + apply (or_else_converts v "jest"), fulfilled_inv in Hv.
      destruct Hv as [s ->]. simpl. eauto.
    + simpl. eauto.
  - eauto.
Qed.

(** C1: a call-tool request whose name is none of the registered tool names
    and a read-resource request whose uri is none of the registered uris are
    both rejected, with the errors [Unknown tool: <name>] and
    [Unknown resource: <uri>]; neither handler produces a result. *)
Theorem unknown_name_rejected
    (call : CallToolRequest) (read : ReadResourceRequest) :
  ~ In call.(name) registered_tool_names ->
  ~ In read.(uri) registered_resource_uris ->
  callTool call = Rejected (Error ("Unknown tool: " ++ call.(name)))
  /\ readResource read = Rejected (Error ("Unknown resource: " ++ read.(uri))).
Proof.
  destruct call as [tool args], read as [u]. simpl.
  intros Htool Huri. split.
  - unfold callTool. simpl.
    destruct (tool =? "analyze-code") eqn:E1;
      [apply String.eqb_eq in E1; elim Htool; simpl; auto|].
    destruct (tool =? "generate-tests") eqn:E2;
      [apply String.eqb_eq in E2; elim Htool; simpl; auto|].
    destruct (tool =? "optimize-performance") eqn:E3;
      [apply String.eqb_eq in E3; elim Htool; simpl; auto|].
    reflexivity.
  - unfold readResource. simpl.
    destruct (u =? "saas://docs/best-practices") eqn:E1;
      [apply String.eqb_eq in E1; elim Huri; simpl; auto|].
    destruct (u =? "saas://templates/api") eqn:E2;
      [apply String.eqb_eq in E2; elim Huri; simpl; auto|].
    reflexivity.
Qed.

(** C2, as the handler behaves: a request that names a registered tool and
    lacks an argument its schema requires is still answered with a success,
    provided the argument spliced into the report, if supplied at all,
    converts to a string.  Presence of required arguments is not checked. *)
Theorem missing_required_argument_accepted (request : CallToolRequest) :
  In request.(name) registered_tool_names ->
  has_required_arguments request = false ->
  template_argument_converts request = true ->
  fulfilled (callTool request) = true.
Proof.
  intros Hname _ Hconv.
  destruct (callTool_registered request Hname Hconv) as [report ->].
  reflexivity.
Qed.

(** C3, as the handler behaves: for a registered tool and an argument
    mapping that holds every required argument, and in which the argument
    spliced into the report, if supplied, converts to a string, the call is
    answered with a success whose content is one block of type [text]. *)
Theorem callTool_success (request : CallToolRequest) :
  In request.(name) registered_tool_names ->
  has_required_arguments request = true ->
  template_argument_converts request = true ->
  exists report,
    callTool request
    = Fulfilled {| content := [ TextContent.make "text" report ] |}.
Proof.
  intros Hname _ Hconv. exact (callTool_registered request Hname Hconv).
Qed.

(** C4: whatever the request, list-tools answers with exactly three
    descriptors, named [analyze-code], [generate-tests] and
    [optimize-performance], in that order. *)
Theorem listTools_catalog (request : ListRequest) :
  exists result,
    listTools request = Fulfilled result
    /\ length result.(tools) = 3
    /\ map Tool.name result.(tools)
       = ["analyze-code"; "generate-tests"; "optimize-performance"].
Proof. eexists. repeat split. Qed.

(** C5: the list-resources catalog declares [saas://docs/best-practices] as
    [text/markdown] and [saas://templates/api] as [application/json], and
    reading the uri of any descriptor of that catalog succeeds with one
    content block whose mimeType is the one the descriptor declares. *)
Theorem readResource_mimeType (descriptor : Resource.t) :
  In descriptor listed_resources ->
  map (fun d => (Resource.uri d, Resource.mimeType d)) listed_resources
  = [ ("saas://docs/best-practices", "text/markdown");
      ("saas://templates/api", "application/json") ]
  /\ exists payload,
       readResource {| uri := Resource.uri descriptor |}
       = Fulfilled
           {| contents :=
               [ ResourceContents.make (Resource.uri descriptor)
                   (Resource.mimeType descriptor) payload ] |}.
Proof.
  intros Hin. split; [reflexivity|].
  simpl in Hin. destruct Hin as [<-|[<-|[]]]; eexists; reflexivity.
Qed.

(** C6: a generate-tests call that supplies [code] and omits [framework]
    succeeds with one content block of type [text], whose text contains
    [describe(] and the default framework name [jest]. *)
Theorem generate_tests_default_framework (args : object) (code : value) :
  get args "code" = Some code ->
  get args "framework" = None ->
  exists report,
    callTool {| name := "generate-tests"; arguments := Some args |}
    = Fulfilled {| content := [ TextContent.make "text" report ] |}
    /\ includes "describe(" report = true
    /\ includes "jest" report = true.
Proof.
  intros _ Hframework. unfold callTool. simpl. rewrite Hframework. simpl.
  eexists. split; [reflexivity|]. split; reflexivity.
Qed.

(** C7, as the handler behaves: an analyze-code call whose [language]
    converts to a string succeeds with one content block of type [text].
    A truthy [language] is spliced in, in its string form, right after
    [Analyzing], so the text contains it; with [language] = [python] the
    text contains the word [python].  A falsy [language] (the empty string,
    [null], [false], a zero) is replaced by [unknown].  Any string, the
    empty one too, occurs in the text. *)
Theorem analyze_code_names_truthy_language
    (args : object) (code language : value) (shown : string) :
  get args "code" = Some code ->
  get args "language" = Some language ->
  ToString language = Fulfilled shown ->
  exists report,
    callTool {| name := "analyze-code"; arguments := Some args |}
    = Fulfilled {| content := [ TextContent.make "text" report ] |}
    /\ (ToBoolean (Some language) = true ->
        prefix ("Analyzing " ++ shown ++ " code...") report = true
        /\ includes shown report = true)
    /\ (ToBoolean (Some language) = false ->
        prefix "Analyzing unknown code..." report = true)
    /\ (forall s, language = JString s -> includes s report = true).
Proof.
  intros _ Hlanguage Hshown.
  destruct (ToBoolean (Some language)) eqn:Htruthy;
    unfold callTool; simpl; rewrite Hlanguage; unfold or_else; rewrite Htruthy.
  - rewrite Hshown. simpl. eexists. split; [reflexivity|].
    split; [|split; [discriminate|]].
    + intros _. split.
      * simpl. now rewrite prefix_cancel.
      * apply (includes_app "Analyzing " shown).
    + intros s ->. simpl in Hshown. injection Hshown as <-.
      apply (includes_app "Analyzing " s).
  - simpl. eexists. split; [reflexivity|].
    split; [discriminate|]. split; [reflexivity|].
    intros s ->. simpl in Htruthy. apply negb_false_iff in Htruthy.
    apply String.eqb_eq in Htruthy. subst s. apply includes_empty.
Qed.

(** C8: list-tools and list-resources are deterministic: any two
    invocations answer with the same catalog, element for element and in
    the same order. *)
Theorem list_handlers_deterministic (first second : ListRequest) :
  listTools first = listTools second
  /\ listResources first = listResources second.
Proof. split; reflexivity. Qed.

(** C9: when the promise of [connect] is rejected, the process logs the
    diagnostic with the error after its start-up lines and then exits with
    status 1; when the connection is established, nothing calls
    [process.exit] and the process ends with status 0. *)
Theorem startup_exit_status (error : exn) :
  main (Rejected error)
  = (main (Fulfilled tt)
     ++ [ ConsoleError "Failed to start AI-Guided SaaS MCP server:" error;
          ProcessExit 1 ])%list
  /\ exit_status (main (Rejected error)) = 1%Z
  /\ exit_status (main (Fulfilled tt)) = 0%Z.
Proof. repeat split. Qed.

(** C10: the answer of a registered tool does not depend on [code]: two
    analyze-code calls that agree on [language], two generate-tests calls
    that agree on [framework], and any two optimize-performance calls get
    the same answer, whatever else ([code], [metrics]) their argument
    mappings hold. *)
Theorem callTool_ignores_code (tool : string) (args1 args2 : option object) :
  In tool registered_tool_names ->
  (tool = "analyze-code" ->
   optional_get args1 "language" = optional_get args2 "language") ->
  (tool = "generate-tests" ->
   optional_get args1 "framework" = optional_get args2 "framework") ->
  callTool {| name := tool; arguments := args1 |}
  = callTool {| name := tool; arguments := args2 |}.
Proof.
  intros [<-|[<-|[<-|[]]]] Hlanguage Hframework; unfold callTool; simpl.
  - now rewrite (Hlanguage eq_refl).
  - now rewrite (Hframework eq_refl).
  - reflexivity.
Qed.

(** ** Further properties of the handlers *)

(** Only arrays and objects are always truthy: a falsy value is a primitive,
    and converts. *)
Lemma falsy_converts (v : value) :
  ToBoolean (Some v) = false -> fulfilled (ToString v) = true.
Proof. destruct v as [|[]| | | |]; simpl; congruence. Qed.

Lemma or_else_converts_inv (v : value) (fallback : string) :
  fulfilled (ToString (or_else (Some v) (JString fallback))) = true ->
  fulfilled (ToString v) = true.
Proof.
  unfold or_else. destruct (ToBoolean (Some v)) eqn:E; [trivial|].
  intros _. now apply falsy_converts.
Qed.

Lemma or_else_falsy (v : option value) (fallback : value) :
  ToBoolean v = false -> or_else v fallback = fallback.
Proof. unfold or_else. destruct v; [intros ->|intros _]; reflexivity. Qed.

Lemma or_else_truthy (v fallback : value) :
  ToBoolean (Some v) = true -> or_else (Some v) fallback = v.
Proof. unfold or_else. now intros ->. Qed.

Lemma fulfilled_bind {A B : Type} (m : outcome A) (k : A -> outcome B) :
  fulfilled (x <- m ;; k x) = true -> fulfilled m = true.
Proof. destruct m; simpl; congruence. Qed.

(** The only error a conversion throws. *)
Lemma ToString_rejected :
  forall (v : value) (e : exn), ToString v = Rejected e -> e = cannot_convert.
Proof.
  fix ToString_rejected 1. intros v e.
  destruct v as [| b | n | s | elements | props]; simpl; try discriminate.
  - induction elements as [|x rest IH]; [discriminate|].
    destruct (match x with JNull => Fulfilled EmptyString | _ => ToString x end)
      as [sx|ex] eqn:Ex; simpl.
    + destruct rest as [|y rest']; [discriminate|].
      intros H. apply IH. revert H.
      match goal with
      | |- context [bind ?m _] => destruct m; simpl; congruence
      end.
    + intros H. injection H as <-.
      apply (ToString_rejected x). destruct x; try discriminate; exact Ex.
  - destruct (hasOwnProperty props "toString"); congruence.
Qed.

Lemma includes_append_r (needle s t : string) :
  includes needle t = true -> includes needle (s ++ t) = true.
Proof.
  intros H. induction s as [|c s IH]; simpl; [exact H|].
  rewrite IH. apply orb_true_r.
Qed.

(** X1: a call succeeds exactly when it names an advertised tool and the
    argument spliced into the report, if supplied, converts to a string. *)
Theorem callTool_fulfilled_iff (request : CallToolRequest) :
  fulfilled (callTool request) = true
  <-> In request.(name) registered_tool_names
      /\ template_argument_converts request = true.
Proof.
  split.
  - destruct request as [tool args].
    unfold callTool, template_argument_converts, template_argument. simpl.
    destruct (tool =? "analyze-code") eqn:E1.
    { apply String.eqb_eq in E1. subst tool. intros H.
      split; [simpl; auto|]. apply fulfilled_bind in H.
      destruct (optional_get args "language") as [v|]; [|reflexivity].
      exact (or_else_converts_inv v "unknown" H). }
    destruct (tool =? "generate-tests") eqn:E2.
    { apply String.eqb_eq in E2. subst tool. intros H.
      split; [simpl; auto|]. apply fulfilled_bind in H.
      destruct (optional_get args "framework") as [v|]; [|reflexivity].
      exact (or_else_converts_inv v "jest" H). }
    destruct (tool =? "optimize-performance") eqn:E3.
    { apply String.eqb_eq in E3. subst tool. intros _.
      split; [simpl; auto|reflexivity]. }
    discriminate.
  - intros [Hname Hconv].
    destruct (callTool_registered request Hname Hconv) as [report ->].
    reflexivity.
Qed.

(** X2: a call is rejected for one of two reasons only: the name is not an
    advertised tool, and the error is [Unknown tool: <name>]; or the tool is
    advertised and the argument spliced into its report does not convert,
    and the error is the conversion's [TypeError]. *)
Theorem callTool_rejected (request : CallToolRequest) (e : exn) :
  callTool request = Rejected e ->
  (~ In request.(name) registered_tool_names
   /\ e = Error ("Unknown tool: " ++ request.(name)))
  \/ (In request.(name) registered_tool_names
      /\ template_argument_converts request = false
      /\ e = cannot_convert).
Proof.
  intros H.
  destruct (in_dec string_dec request.(name) registered_tool_names) as [Hin|Hout].
  - right. split; [exact Hin|].
    destruct (template_argument_converts request) eqn:Hconv.
    + destruct (callTool_registered request Hin Hconv) as [report Hr].
      congruence.
    + split; [reflexivity|].
      destruct request as [tool args]. revert H.
      unfold callTool. simpl in *.
      destruct Hin as [<-|[<-|[<-|[]]]]; simpl.
      * destruct (ToString _) as [s|e'] eqn:E; simpl; [discriminate|].
        intros H. injection H as <-. exact (ToString_rejected _ _ E).
      * destruct (ToString _) as [s|e'] eqn:E; simpl; [discriminate|].
        intros H. injection H as <-. exact (ToString_rejected _ _ E).
      * discriminate.
  - left. split; [exact Hout|].
    destruct request as [tool args]. revert H.
    unfold callTool. simpl in *.
    destruct (tool =? "analyze-code") eqn:E1;
      [apply String.eqb_eq in E1; elim Hout; auto|].
    destruct (tool =? "generate-tests") eqn:E2;
      [apply String.eqb_eq in E2; elim Hout; auto|].
    destruct (tool =? "optimize-performance") eqn:E3;
      [apply String.eqb_eq in E3; elim Hout; auto|].
    congruence.
Qed.

(** X3: reading succeeds exactly for the advertised uris, and a successful
    read answers with one content block that carries the requested uri. *)
Theorem readResource_fulfilled_iff (request : ReadResourceRequest) :
  (fulfilled (readResource request) = true
   <-> In request.(uri) registered_resource_uris)
  /\ (forall result,
        readResource request = Fulfilled result ->
        exists mimeType payload,
          result.(contents)
          = [ ResourceContents.make request.(uri) mimeType payload ]).
Proof.
  destruct request as [u]. unfold readResource. simpl.
  destruct (u =? "saas://docs/best-practices") eqn:E1.
  { apply String.eqb_eq in E1. subst u. split.
    - split; auto.
    - intros result H. injection H as <-. simpl. eauto. }
  destruct (u =? "saas://templates/api") eqn:E2.
  { apply String.eqb_eq in E2. subst u. split.
    - split; auto.
    - intros result H. injection H as <-. simpl. eauto. }
  apply String.eqb_neq in E1, E2. split.
  - split; [discriminate|]. intros [H|[H|[]]]; congruence.
  - discriminate.
Qed.

(** X4: a falsy value of the spliced argument (an empty string, [null],
    [false], a zero) is treated like no argument mapping at all: the answer
    is the one with the default ([unknown], [jest]). *)
Theorem callTool_falsy_argument
    (tool key : string) (args : option object) :
  template_argument tool = Some key ->
  ToBoolean (optional_get args key) = false ->
  callTool {| name := tool; arguments := args |}
  = callTool {| name := tool; arguments := None |}.
Proof.
  unfold template_argument, callTool. simpl.
  destruct (tool =? "analyze-code").
  { intros [= <-] H. now rewrite (or_else_falsy _ _ H). }
  destruct (tool =? "generate-tests").
  { intros [= <-] H. now rewrite (or_else_falsy _ _ H). }
  discriminate.
Qed.

(** X5: with a truthy [framework] that converts to a string the call
    succeeds with one content block of type [text]; the framework is
    spliced into the heading of the generated tests, and the canned [describe(] block follows
    whatever the framework is. *)
Theorem generate_tests_names_framework
    (args : object) (framework : value) (shown : string) :
  get args "framework" = Some framework ->
  ToBoolean (Some framework) = true ->
  ToString framework = Fulfilled shown ->
  exists report,
    callTool {| name := "generate-tests"; arguments := Some args |}
    = Fulfilled {| content := [ TextContent.make "text" report ] |}
    /\ prefix ("Generated " ++ shown ++ " tests:") report = true
    /\ includes "describe(" report = true.
Proof.
  intros Hget Htruthy Hshown. unfold callTool. simpl.
  rewrite Hget, (or_else_truthy _ _ Htruthy), Hshown. simpl.
  eexists. split; [reflexivity|]. split.
  - simpl. now rewrite prefix_cancel.
  - apply (includes_append_r "describe(" shown). reflexivity.
Qed.
End Handlers.

Arguments JNull {number}.
Arguments JBoolean {number} b.
Arguments JString {number} s.
Arguments JArray {number} elements.
Arguments JObject {number} props.

(** * The handlers on concrete requests

    Below, numbers are the integers of [IntegerNumbers]. *)

Local Abbreviation callTool' :=
  (callTool IntegerNumbers.isFalsy IntegerNumbers.toString).
Local Abbreviation readResource' :=
  (readResource IntegerNumbers.isFinite IntegerNumbers.toString).
Local Abbreviation ToString' := (ToString IntegerNumbers.toString).

(** ** Conversions and payloads *)

Example ToString_array :
  ToString' (JArray [ JNumber 1%Z; JNull; JString "a";
                      JArray [ JBoolean true; JNumber (-3)%Z ] ])
  = Fulfilled "1,,a,true,-3".
Proof. reflexivity. Qed.

Example ToString_plain_object :
  ToString' (JObject [ ("valueOf", JNumber 1%Z) ]) = Fulfilled "[object Object]".
Proof. reflexivity. Qed.

Example ToString_hidden_toString :
  ToString' (JArray [ JString "a"; JObject [ ("toString", JNull) ] ])
  = Rejected cannot_convert.
Proof. reflexivity. Qed.

Example best_practices_is_markdown :
  exists payload,
    readResource' {| uri := "saas://docs/best-practices" |}
    = Fulfilled
        {| contents :=
            [ ResourceContents.make "saas://docs/best-practices" "text/markdown"
                payload ] |}
    /\ prefix "# SaaS Best Practices" payload = true.
Proof. eexists. split; reflexivity. Qed.

Example api_templates_payload :
  readResource' {| uri := "saas://templates/api" |}
  = Fulfilled
      {| contents :=
          [ ResourceContents.make "saas://templates/api" "application/json"
              (lines
                 [ "{";
                   "  " ++ dq ++ "endpoints" ++ dq ++ ": [";
                   "    {";
                   "      " ++ dq ++ "method" ++ dq ++ ": " ++ dq ++ "GET" ++ dq ++ ",";
                   "      " ++ dq ++ "path" ++ dq ++ ": " ++ dq ++ "/api/users" ++ dq ++ ",";
                   "      " ++ dq ++ "description" ++ dq ++ ": " ++ dq ++ "List users" ++ dq;
                   "    },";
                   "    {";
                   "      " ++ dq ++ "method" ++ dq ++ ": " ++ dq ++ "POST" ++ dq ++ ",";
                   "      " ++ dq ++ "path" ++ dq ++ ": " ++ dq ++ "/api/users" ++ dq ++ ",";
                   "      " ++ dq ++ "description" ++ dq ++ ": " ++ dq ++ "Create user" ++ dq;
                   "    }";
                   "  ]";
                   "}" ]) ] |}.
Proof. reflexivity. Qed.

Example falsy_language_is_unknown :
  callTool' {| name := "analyze-code";
               arguments := Some [ ("code", JString "x");
                                   ("language", JNumber 0%Z) ] |}
  = callTool' {| name := "analyze-code"; arguments := None |}.
Proof. reflexivity. Qed.

Example tool_names_are_case_sensitive :
  callTool' {| name := "Analyze-Code"; arguments := None |}
  = Rejected (Error "Unknown tool: Analyze-Code").
Proof. reflexivity. Qed.

(** ** Instances of the properties *)

Lemma unknown_name_rejected_witness :
  callTool' {| name := "nonexistent-tool"; arguments := Some [] |}
  = Rejected (Error "Unknown tool: nonexistent-tool")
  /\ readResource' {| uri := "saas://unknown" |}
     = Rejected (Error "Unknown resource: saas://unknown").
Proof.
  apply (unknown_name_rejected Z IntegerNumbers.isFalsy IntegerNumbers.isFinite
           IntegerNumbers.toString
           {| name := "nonexistent-tool"; arguments := Some [] |}
           {| uri := "saas://unknown" |});
    simpl; intuition discriminate.
Defined.

(** Against C2 as worded: [analyze-code] requires [code] and [language];
    called with an empty argument mapping it still answers with a report. *)
Lemma required_arguments_not_enforced :
  In "analyze-code" registered_tool_names
  /\ required_arguments "analyze-code" = [ "code"; "language" ]
  /\ has_required_arguments
       {| name := "analyze-code"; arguments := Some (@nil (string * value Z)) |}
     = false
  /\ callTool' {| name := "analyze-code"; arguments := Some [] |}
     = Fulfilled
         (text_content
            (lines [ "Analyzing unknown code...";
                     EmptyString;
                     "Code Quality Report:";
                     "- Structure: Good";
                     "- Readability: Excellent";
                     "- Suggestions: Consider adding type annotations" ])).
Proof. repeat split. simpl. auto. Qed.

Lemma missing_required_argument_accepted_witness :
  has_required_arguments
    {| name := "generate-tests";
       arguments := Some [ ("framework", @JString Z "mocha") ] |} = false
  /\ fulfilled
       (callTool' {| name := "generate-tests";
                     arguments := Some [ ("framework", JString "mocha") ] |})
     = true.
Proof.
  split; [reflexivity|].
  apply (missing_required_argument_accepted Z IntegerNumbers.isFalsy
           IntegerNumbers.toString
           {| name := "generate-tests";
              arguments := Some [ ("framework", JString "mocha") ] |}).
  - simpl. auto.
  - reflexivity.
  - reflexivity.
Defined.

(** Against C3 as worded: both required arguments of [analyze-code] are
    present, but [language] is an object whose own [toString] property hides
    the inherited method, so splicing it into the report throws. *)
Lemma unconvertible_language_rejected :
  In "analyze-code" registered_tool_names
  /\ has_required_arguments
       {| name := "analyze-code";
          arguments := Some [ ("code", JString "x");
                              ("language", JObject [ ("toString", JNumber 1%Z) ]) ] |}
     = true
  /\ callTool' {| name := "analyze-code";
                  arguments := Some [ ("code", JString "x");
                                      ("language",
                                       JObject [ ("toString", JNumber 1%Z) ]) ] |}
     = Rejected (TypeError "Cannot convert object to primitive value").
Proof. repeat split. simpl. auto. Qed.

Lemma callTool_success_witness :
  exists report,
    callTool' {| name := "generate-tests";
                 arguments := Some [ ("code", JString "function add(a,b){return a+b;}");
                                     ("framework", JString "mocha") ] |}
    = Fulfilled {| content := [ TextContent.make "text" report ] |}.
Proof.
  apply (callTool_success Z IntegerNumbers.isFalsy IntegerNumbers.toString
           {| name := "generate-tests";
              arguments := Some [ ("code", JString "function add(a,b){return a+b;}");
                                  ("framework", JString "mocha") ] |}).
  - simpl. auto.
  - reflexivity.
  - reflexivity.
Defined.

Lemma readResource_mimeType_witness :
  exists payload,
    readResource' {| uri := "saas://templates/api" |}
    = Fulfilled
        {| contents :=
            [ ResourceContents.make "saas://templates/api" "application/json"
                payload ] |}.
Proof.
  apply (readResource_mimeType Z IntegerNumbers.isFinite IntegerNumbers.toString
           (Resource.make "saas://templates/api" "API Templates"
              "Ready-to-use API endpoint templates" "application/json")).
  simpl. auto.
Defined.

Lemma generate_tests_default_framework_witness :
  exists report,
    callTool' {| name := "generate-tests";
                 arguments :=
                   Some [ ("code", JString "function add(a,b){return a+b;}") ] |}
    = Fulfilled {| content := [ TextContent.make "text" report ] |}
    /\ includes "describe(" report = true
    /\ includes "jest" report = true.
Proof.
  apply (generate_tests_default_framework Z IntegerNumbers.isFalsy
           IntegerNumbers.toString
           [ ("code", JString "function add(a,b){return a+b;}") ]
           (JString "function add(a,b){return a+b;}"));
    reflexivity.
Defined.

(** Against C7 as worded: the supplied [language] is [false], or the number
    zero; the call succeeds, the report says [unknown], and neither [false]
    nor [0] occurs in it. *)
Lemma falsy_language_is_not_shown :
  callTool' {| name := "analyze-code";
               arguments := Some [ ("code", JString "x");
                                   ("language", JBoolean false) ] |}
  = Fulfilled
      {| content :=
          [ TextContent.make "text"
              (lines [ "Analyzing unknown code...";
                       EmptyString;
                       "Code Quality Report:";
                       "- Structure: Good";
                       "- Readability: Excellent";
                       "- Suggestions: Consider adding type annotations" ]) ] |}
  /\ callTool' {| name := "analyze-code";
                  arguments := Some [ ("code", JString "x");
                                      ("language", JNumber 0%Z) ] |}
     = callTool' {| name := "analyze-code";
                    arguments := Some [ ("code", JString "x");
                                        ("language", JBoolean false) ] |}
  /\ ToString' (JBoolean false) = Fulfilled "false"
  /\ ToString' (JNumber 0%Z) = Fulfilled "0"
  /\ includes "false"
       (lines [ "Analyzing unknown code...";
                EmptyString;
                "Code Quality Report:";
                "- Structure: Good";
                "- Readability: Excellent";
                "- Suggestions: Consider adding type annotations" ]) = false
  /\ includes "0"
       (lines [ "Analyzing unknown code...";
                EmptyString;
                "Code Quality Report:";
                "- Structure: Good";
                "- Readability: Excellent";
                "- Suggestions: Consider adding type annotations" ]) = false.
Proof. repeat split. Qed.

Lemma analyze_code_names_truthy_language_witness :
  exists report,
    callTool' {| name := "analyze-code";
                 arguments := Some [ ("code", JString "x");
                                     ("language", JString "python") ] |}
    = Fulfilled {| content := [ TextContent.make "text" report ] |}
    /\ prefix ("Analyzing " ++ "python" ++ " code...") report = true
    /\ includes "python" report = true.
Proof.
  destruct (analyze_code_names_truthy_language Z IntegerNumbers.isFalsy
              IntegerNumbers.toString
              [ ("code", JString "x"); ("language", JString "python") ]
              (JString "x") (JString "python") "python"
              eq_refl eq_refl eq_refl)
    as [report [Hcall [Htruthy _]]].
  exists report. split; [exact Hcall|]. exact (Htruthy eq_refl).
Defined.

Lemma callTool_ignores_code_witness :
  callTool' {| name := "optimize-performance";
               arguments := Some [ ("code", JString "for(;;){}") ] |}
  = callTool' {| name := "optimize-performance";
                 arguments := Some [ ("code", JString "x");
                                     ("metrics", JArray [ JString "memory" ]) ] |}.
Proof.
  apply (callTool_ignores_code Z IntegerNumbers.isFalsy IntegerNumbers.toString
           "optimize-performance"
           (Some [ ("code", JString "for(;;){}") ])
           (Some [ ("code", JString "x");
                   ("metrics", JArray [ JString "memory" ]) ])).
  - simpl. auto.
  - discriminate.
  - discriminate.
Defined.

(** * Properties of the scripts *)

Lemma commands_app (s t : list action) :
  commands (s ++ t) = (commands s ++ commands t)%list.
Proof.
  induction s as [|[] s IH]; simpl; try exact IH.
  - reflexivity.
  - now rewrite IH.
Qed.

Lemma logged_errors_app (s t : list action) :
  logged_errors (s ++ t) = (logged_errors s ++ logged_errors t)%list.
Proof.
  induction s as [|[] s IH]; simpl; try exact IH.
  - reflexivity.
  - now rewrite IH.
Qed.

Section ScriptProperties.

Variable world : Type.
Variable exec : string -> world -> (Thrown.t + string * string) * world.
Variable execSync : string -> world -> option Thrown.t * world.
Variable spawn : string -> list string -> world -> settled * world.
Variable chalk : color -> string -> string.
Variable attemptCommonFixes : script world bool.
Variable scanForOrphanedFiles : script world (list string).

(** ** Sequencing, read backwards *)

Lemma and_then_fulfilled {A B : Type}
    (m : script world A) (k : A -> script world B)
    (w w' : world) (b : B) (t : list action) :
  and_then m k w = (inr b, t, w') ->
  exists a t1 w1 t2,
    m w = (inr a, t1, w1) /\ k a w1 = (inr b, t2, w') /\ t = (t1 ++ t2)%list.
Proof.
  unfold and_then. destruct (m w) as [[[e|a] t1] w1]; [discriminate|].
  destruct (k a w1) as [[r t2] w2] eqn:E. intros [= -> <- ->].
  exists a, t1, w1, t2. auto.
Qed.

Lemma and_then_rejected {A B : Type}
    (m : script world A) (k : A -> script world B)
    (w w' : world) (error : Thrown.t) (t : list action) :
  and_then m k w = (inl error, t, w') ->
  m w = (inl error, t, w')
  \/ exists a t1 w1 t2,
       m w = (inr a, t1, w1)
       /\ k a w1 = (inl error, t2, w') /\ t = (t1 ++ t2)%list.
Proof.
  unfold and_then. destruct (m w) as [[[e|a] t1] w1].
  - intros [= -> -> ->]. now left.
  - destruct (k a w1) as [[r t2] w2] eqn:E. intros [= -> <- ->].
    right. exists a, t1, w1, t2. auto.
Qed.

(** Printing returns normally and leaves the world as it is. *)
Lemma console_log_run (line : string) (w w' : world)
    (r : Thrown.t + unit) (t : list action) :
  console_log line w = (r, t, w') -> r = inr tt /\ t = [Log line] /\ w' = w.
Proof. unfold console_log. intros [= <- <- <-]. auto. Qed.

Lemma for_each_log_run (files : list string) (line : string -> string)
    (w w' : world) (r : Thrown.t + unit) (t : list action) :
  for_each files (fun file => console_log (line file)) w = (r, t, w') ->
  r = inr tt /\ w' = w /\ commands t = [].
Proof.
  revert r t w'. induction files as [|file files IH]; simpl; intros r t w'.
  - unfold pure. intros [= <- <- <-]. auto.
  - unfold and_then, console_log at 1.
    destruct (for_each files (fun file => console_log (line file)) w)
      as [[r1 t1] w1] eqn:E.
    destruct (IH _ _ _ eq_refl) as (-> & -> & Ht1).
    intros [= <- <- <-]. auto.
Qed.

(** The report on orphaned files of [runMCPDeploy], and the one of
    [mcpPipelineInitOrUpdate]: lines are printed, nothing else happens. *)
Lemma report_run (files : list string) (first last : string)
    (line : string -> string) (w w' : world) (r : Thrown.t + unit)
    (t : list action) :
  (if Nat.ltb 0 (length files)
   then and_then (console_log first)
          (fun _ => and_then (for_each files (fun file => console_log (line file)))
                      (fun _ => console_log last))
   else pure tt) w = (r, t, w') ->
  r = inr tt /\ w' = w /\ commands t = [].
Proof.
  destruct (Nat.ltb 0 (length files)).
  - unfold and_then at 1 2. unfold console_log at 1 3.
    destruct (for_each files (fun file => console_log (line file)) w)
      as [[r1 t1] w1] eqn:E.
    destruct (for_each_log_run _ _ _ _ _ _ E) as (-> & -> & Ht1).
    intros [= <- <- <-]. repeat split. simpl. rewrite commands_app, Ht1.
    reflexivity.
  - unfold pure. intros [= <- <- <-]. auto.
Qed.

Lemma notice_run (files : list string) (line : string)
    (w w' : world) (r : Thrown.t + unit) (t : list action) :
  (if Nat.ltb 0 (length files) then console_log line else pure tt) w
  = (r, t, w') ->
  r = inr tt /\ w' = w /\ commands t = [].
Proof.
  destruct (Nat.ltb 0 (length files)); unfold console_log, pure;
    intros [= <- <- <-]; auto.
Qed.

(** The agent probe never throws; it answers whether [ssh-add -l] exited
    with status 0. *)
Lemma checkSSHAgent_run (w : world) :
  checkSSHAgent execSync w
  = (inr (match fst (execSync "ssh-add -l" w) with
          | None => true
          | Some _ => false
          end),
     [Run "ssh-add -l"],
     snd (execSync "ssh-add -l" w)).
Proof.
  unfold checkSSHAgent, try_catch, and_then, run_execSync, pure.
  destruct (execSync "ssh-add -l" w) as [[error|] w1]; reflexivity.
Qed.

Lemma checkGitHubSSHConnection_run (w : world) :
  checkGitHubSSHConnection execSync w
  = (inr (match fst (execSync "ssh -T git@github.com 2>&1" w) with
          | None => true
          | Some error =>
              includes "successfully authenticated"
                (text_or (Thrown.stdout error)
                   (text_or (Thrown.stderr error) EmptyString))
          end),
     [Run "ssh -T git@github.com 2>&1"],
     snd (execSync "ssh -T git@github.com 2>&1" w)).
Proof.
  unfold checkGitHubSSHConnection, try_catch, and_then, run_execSync, pure.
  destruct (execSync "ssh -T git@github.com 2>&1" w) as [[error|] w1];
    reflexivity.
Qed.

(** X6: the GitHub probe never throws and runs one command.  It answers
    [true] when [ssh -T] exits with status 0.  When [ssh -T] fails, the
    answer is read off the captured output: [false] when the error carries
    none (absent or empty streams), and off [stdout] alone as soon as
    [stdout] is not empty, whatever [stderr] holds. *)
Theorem checkGitHubSSHConnection_answer (w : world) :
  exists answer,
    checkGitHubSSHConnection execSync w
    = (inr answer,
       [Run "ssh -T git@github.com 2>&1"],
       snd (execSync "ssh -T git@github.com 2>&1" w))
    /\ (fst (execSync "ssh -T git@github.com 2>&1" w) = None ->
        answer = true)
    /\ (forall error,
          fst (execSync "ssh -T git@github.com 2>&1" w) = Some error ->
          (Thrown.stdout error = None \/ Thrown.stdout error = Some EmptyString) ->
          (Thrown.stderr error = None \/ Thrown.stderr error = Some EmptyString) ->
          answer = false)
    /\ (forall error out,
          fst (execSync "ssh -T git@github.com 2>&1" w) = Some error ->
          Thrown.stdout error = Some out ->
          out <> EmptyString ->
          answer = includes "successfully authenticated" out).
Proof.
  eexists. split; [apply checkGitHubSSHConnection_run|].
  destruct (fst (execSync "ssh -T git@github.com 2>&1" w)) as [error|].
  - split; [discriminate|]. split.
    + intros error' [= <-] [-> | ->] [-> | ->]; reflexivity.
    + intros error' out [= <-] -> Hout. simpl.
      apply String.eqb_neq in Hout. now rewrite Hout.
  - split; [reflexivity|]. split; discriminate.
Qed.

Ltac answer_all :=
  repeat
    (match goal with
     | |- context [execSync ?c ?w] =>
         destruct (execSync c w) as [[?error|] ?w] eqn:?
     | |- context [exec ?c ?w] =>
         destruct (exec c w) as [[?error|[?out ?err]] ?w] eqn:?
     | |- context [if ?condition then _ else _] =>
         destruct condition eqn:?
     end; simpl).

Ltac unfold_git :=
  unfold gitStageCommitPush, checkGitHubSSHConnection, checkSSHAgent,
    try_catch, and_then, run_exec, run_execSync, console_log, console_error,
    pure, throw, returned, trace_of.

(** The run of the helper when a probe fails. *)
Lemma without_ssh_run
    (commitMessage : string) (w w1 w2 : world) (agent github : bool)
    (t1 t2 : list action) :
  checkSSHAgent execSync w = (inr agent, t1, w1) ->
  checkGitHubSSHConnection execSync w1 = (inr github, t2, w2) ->
  agent && github = false ->
  gitStageCommitPush exec execSync commitMessage w
  = (inr tt,
     (t1 ++ t2
      ++ [ Log (nl ++ "❌ SSH is not properly configured for GitHub.");
           Log ("Please run the SSH setup wizard first: npm run setup-ssh" ++ nl) ])%list,
     w2)
  /\ commands (trace_of (gitStageCommitPush exec execSync commitMessage w))
     = [ "ssh-add -l"; "ssh -T git@github.com 2>&1" ].
Proof.
  intros Hagent Hgithub Hboth.
  assert (Hrun : gitStageCommitPush exec execSync commitMessage w
                 = (inr tt,
                    (t1 ++ t2
                     ++ [ Log (nl ++ "❌ SSH is not properly configured for GitHub.");
                          Log ("Please run the SSH setup wizard first: npm run setup-ssh" ++ nl) ])%list,
                    w2)).
  { unfold gitStageCommitPush, try_catch, and_then at 1 2.
    rewrite Hagent. unfold and_then at 1. rewrite Hgithub.
    destruct agent, github; try discriminate; reflexivity. }
  split; [exact Hrun|].
  rewrite Hrun. unfold trace_of. simpl.
  rewrite checkSSHAgent_run in Hagent.
  rewrite checkGitHubSSHConnection_run in Hgithub.
  injection Hagent as _ <- _. injection Hgithub as _ <- _. reflexivity.
Qed.


(** X7: when either probe answers [false], the helper runs no Git command
    at all: it prints the two lines of advice and returns normally, so a
    caller cannot tell from the outcome that nothing was pushed.  Both
    probes are run before the decision, also when the first one fails. *)
Theorem gitStageCommitPush_without_ssh
    (commitMessage : string) (w w1 w2 : world) (agent github : bool)
    (t1 t2 : list action) :
  checkSSHAgent execSync w = (inr agent, t1, w1) ->
  checkGitHubSSHConnection execSync w1 = (inr github, t2, w2) ->
  agent && github = false ->
  gitStageCommitPush exec execSync commitMessage w
  = (inr tt,
     (t1 ++ t2
      ++ [ Log (nl ++ "❌ SSH is not properly configured for GitHub.");
           Log ("Please run the SSH setup wizard first: npm run setup-ssh" ++ nl) ])%list,
     w2)
  /\ commands (trace_of (gitStageCommitPush exec execSync commitMessage w))
     = [ "ssh-add -l"; "ssh -T git@github.com 2>&1" ].
Proof. apply without_ssh_run. Qed.

(** X8: whatever the world answers, the commands the helper runs are an
    initial part of one fixed sequence: the two probes, then [git add -A],
    [git status --short], the commit and the push.  In particular nothing
    is pushed that was not committed by this run, and both probes are
    always run. *)
Theorem gitStageCommitPush_command_order (commitMessage : string) (w : world) :
  exists n,
    2 <= n
    /\ commands (trace_of (gitStageCommitPush exec execSync commitMessage w))
       = firstn n (git_commands commitMessage).
Proof.
  unfold_git. answer_all;
    first [ exists 2; split; [repeat constructor | reflexivity]
          | exists 3; split; [repeat constructor | reflexivity]
          | exists 4; split; [repeat constructor | reflexivity]
          | exists 5; split; [repeat constructor | reflexivity]
          | exists 6; split; [repeat constructor | reflexivity] ].
Qed.

(** X9: the helper rejects only with the error of a Git command that
    failed, rethrown unchanged: the error it rejects with is the one [exec]
    answered for [git add -A], [git status --short], the commit or the push,
    in the world the commands before it left, and the world is left as that
    command left it.  That command is the last one the helper ran, and the
    error is logged once, right after it.  A failing probe never makes the
    helper reject. *)
Theorem gitStageCommitPush_rejected
    (commitMessage : string) (w w' : world) (error : Thrown.t)
    (trace : list action) :
  gitStageCommitPush exec execSync commitMessage w = (inl error, trace, w') ->
  let probed :=
    snd (execSync "ssh -T git@github.com 2>&1" (snd (execSync "ssh-add -l" w))) in
  let staged := snd (exec "git add -A" probed) in
  let listed := snd (exec "git status --short" staged) in
  let committed :=
    snd (exec ("git commit -m " ++ dq ++ commitMessage ++ dq) listed) in
  exists before command from,
    trace = (before
             ++ [ Run command;
                  LogError ("❌ Git operation failed:") error ])%list
    /\ logged_errors before = []
    /\ In (command, from)
         [ ("git add -A", probed);
           ("git status --short", staged);
           ("git commit -m " ++ dq ++ commitMessage ++ dq, listed);
           ("git push", committed) ]
    /\ exec command from = (inl error, w')
    /\ In command (skipn 2 (git_commands commitMessage)).
Proof.
  unfold_git. answer_all; intros H; try discriminate;
    injection H as <- <- <-;
    repeat match goal with
           | E : (_, _) = (_, _) |- _ => inversion E; clear E; subst
           end;
    match goal with
    | |- exists before command from, ?t = _ /\ _ =>
        exists (removelast (removelast t)); eexists; eexists;
        split; [reflexivity|]; split; [reflexivity|];
        split; [simpl; eauto 10|]; split; [congruence|simpl; auto]
    end.
Qed.

(** X10: a run that returns normally has logged no error and has stopped
    at one of three points only: after the probes (SSH not set up), after
    [git status --short] (nothing to commit), or after the push.  It never
    returns normally with changes staged but not committed, or committed
    but not pushed. *)
Theorem gitStageCommitPush_fulfilled
    (commitMessage : string) (w w' : world) (trace : list action) :
  gitStageCommitPush exec execSync commitMessage w = (inr tt, trace, w') ->
  logged_errors trace = []
  /\ (commands trace = firstn 2 (git_commands commitMessage)
      \/ commands trace = firstn 4 (git_commands commitMessage)
      \/ commands trace = git_commands commitMessage).
Proof.
  unfold_git. answer_all; intros H; try discriminate;
    injection H as <- <-; (split; [reflexivity|]); simpl; auto.
Qed.

(** X11: when the probes pass and [git status --short] prints nothing but
    white space, there is nothing to commit: the helper says so and returns
    normally without running the commit or the push. *)
Theorem gitStageCommitPush_nothing_to_commit
    (commitMessage : string) (w w1 w2 w3 w4 : world)
    (t1 t2 : list action) (staged : string * string) (status err : string) :
  checkSSHAgent execSync w = (inr true, t1, w1) ->
  checkGitHubSSHConnection execSync w1 = (inr true, t2, w2) ->
  exec "git add -A" w2 = (inr staged, w3) ->
  exec "git status --short" w3 = (inr (status, err), w4) ->
  blank status = true ->
  gitStageCommitPush exec execSync commitMessage w
  = (inr tt,
     (t1 ++ t2
      ++ [ Log ("📦 Staging all changes...");
           Run "git add -A";
           Run "git status --short";
           Log ("✅ No changes to commit") ])%list,
     w4).
Proof.
  intros Hagent Hgithub Hadd Hstatus Hblank.
  unfold gitStageCommitPush, try_catch, and_then at 1 2.
  rewrite Hagent. unfold and_then at 1. rewrite Hgithub. simpl.
  unfold and_then, console_log, run_exec. rewrite Hadd, Hstatus. simpl.
  rewrite Hblank. reflexivity.
Qed.

(** X12: [vercelDeploy] spawns the deployment only when [vercel whoami]
    succeeds.  A failed [whoami] is reported as a fresh error,
    [Not authenticated with Vercel], and that is the only failure the
    function logs with [console.error]: the promise around the spawned child
    is returned without being awaited, so a deployment that closes with a
    non-zero code (or fails to start) rejects past the [catch] block.  The
    call is fulfilled exactly when the child closes with code 0. *)
Theorem vercelDeploy_outcome (w : world) :
  let run := vercelDeploy exec spawn chalk w in
  match fst (exec "vercel whoami" w) with
  | inl _ =>
      returned run = inl (new_Error ("Not authenticated with Vercel"))
      /\ spawned (trace_of run) = []
      /\ logged_errors (trace_of run) = [ new_Error ("Not authenticated with Vercel") ]
  | inr _ =>
      spawned (trace_of run) = [ ("vercel", [ "--prod" ]) ]
      /\ logged_errors (trace_of run) = []
      /\ returned run
         = match fst (spawn "vercel" [ "--prod" ] (snd (exec "vercel whoami" w))) with
           | Closed (Some 0%Z) => inr tt
           | Closed code =>
               inl (new_Error ("Deployment failed with code " ++ show_code code))
           | Errored error => inl error
           end
  end.
Proof.
  unfold vercelDeploy, try_catch, and_then, run_exec, run_spawn, console_log,
    console_error, pure, throw, returned, trace_of.
  destruct (exec "vercel whoami" w) as [[error|[out err]] w1]; simpl.
  - repeat split.
  - destruct (spawn "vercel" [ "--prod" ] w1) as [[error|[[|p|p]|]] w2];
      simpl; repeat split.
Qed.

(** X13: whatever goes wrong inside [runMCPDeploy], the error is rethrown
    unchanged: the pipeline rejects with the error that the scan threw, or
    that [gitStageCommitPush] threw in the world the scan left, or that
    [deployToVercelWithFixes] threw in the world the Git step left, and it
    leaves the world as the failing step left it.  After what the steps did,
    the pipeline logs that error with [console.error], and the two lines of
    SSH advice follow exactly when the message of the error contains
    [SSH]. *)
Theorem runMCPDeploy_rejected
    (commitMessage : option string) (w w' : world) (error : Thrown.t)
    (trace : list action) :
  runMCPDeploy exec execSync spawn chalk attemptCommonFixes
    scanForOrphanedFiles commitMessage w
  = (inl error, trace, w') ->
  let message :=
    match commitMessage with
    | Some message => message
    | None => "Deploy via MCP"
    end in
  exists before,
    trace
    = (before
       ++ LogError (chalk red ("❌ Deployment failed:")) error
          :: (if includes "SSH" (Thrown.message error)
              then [ Log (chalk yellow (nl ++ "💡 Tip: Make sure your SSH agent is running and GitHub SSH key is added."));
                     Log (chalk white ("   Run: eval " ++ dq ++ "$(ssh-agent -s)" ++ dq ++ " && ssh-add ~/.ssh/id_rsa")) ]
              else []))%list
    /\ ((exists ts,
           scanForOrphanedFiles w = (inl error, ts, w')
           /\ before = Log (chalk blue ("🚀 Starting MCP deployment pipeline...")) :: ts)
        \/ (exists files ts w0 report tg,
              scanForOrphanedFiles w = (inr files, ts, w0)
              /\ gitStageCommitPush exec execSync message w0
                 = (inl error, tg, w')
              /\ commands report = []
              /\ before
                 = (Log (chalk blue ("🚀 Starting MCP deployment pipeline..."))
                    :: ts ++ report ++ tg)%list)
        \/ (exists files ts w0 report tg w1 td,
              scanForOrphanedFiles w = (inr files, ts, w0)
              /\ gitStageCommitPush exec execSync message w0
                 = (inr tt, tg, w1)
              /\ deployToVercelWithFixes exec spawn chalk attemptCommonFixes w1
                 = (inl error, td, w')
              /\ commands report = []
              /\ before
                 = (Log (chalk blue ("🚀 Starting MCP deployment pipeline..."))
                    :: ts ++ report ++ tg ++ td)%list)).
Proof.
  intros H message. unfold runMCPDeploy, try_catch in H. fold message in H.
  match type of H with
  | context [match ?body w with _ => _ end] =>
      destruct (body w) as [[[failure|[]] tb] wb] eqn:Hbody
  end; [|discriminate].
  exists tb. split.
  { unfold and_then, console_error, console_log, throw, pure in H.
    destruct (includes "SSH" (Thrown.message failure)) eqn:E; simpl in H;
      injection H as <- <- <-; rewrite E; reflexivity. }
  assert (Hthrown : failure = error /\ wb = w').
  { unfold and_then, console_error, console_log, throw, pure in H.
    destruct (includes "SSH" (Thrown.message failure)); simpl in H;
      injection H as <- _ <-; auto. }
  destruct Hthrown as [-> ->]. clear H.
  apply and_then_rejected in Hbody
    as [Hlog | (? & t0 & wl & t1 & Hlog & Hbody & ->)];
    [apply console_log_run in Hlog as [[=] _]|].
  apply console_log_run in Hlog as (_ & -> & ->).
  apply and_then_rejected in Hbody
    as [Hscan | (files & ts & w0 & t2 & Hscan & Hbody & ->)];
    [left; exists t1; auto|].
  apply and_then_rejected in Hbody
    as [Hreport | (? & report & wr & t3 & Hreport & Hbody & ->)];
    [apply report_run in Hreport as [[=] _]|].
  apply report_run in Hreport as (_ & -> & Hreport).
  apply and_then_rejected in Hbody
    as [Hgit | ([] & tg & w1 & t4 & Hgit & Hbody & ->)];
    [right; left; exists files, ts, w0, report, t3; auto|].
  apply and_then_rejected in Hbody
    as [Hdeploy | ([] & td & w2 & t5 & Hdeploy & Hlog & ->)];
    [|apply console_log_run in Hlog as [[=] _]].
  right. right. exists files, ts, w0, report, tg, w1, t4. auto 10.
Qed.



(** ** Success is only reported after a deployment that succeeded *)

(** An attempt that returns normally: [vercel whoami] succeeded and the
    child it then spawned closed with code 0. *)
Lemma vercelDeploy_fulfilled (w w' : world) (t : list action) :
  vercelDeploy exec spawn chalk w = (inr tt, t, w') ->
  exists out after,
    exec "vercel whoami" w = (inr out, after)
    /\ spawn "vercel" [ "--prod" ] after = (Closed (Some 0%Z), w')
    /\ t = [ Run "vercel whoami";
                   Log (chalk cyan ("🚀 Deploying to Vercel..."));
                   Spawn "vercel" [ "--prod" ];
                   Log (chalk green ("✅ Deployment successful!")) ].
Proof.
  unfold vercelDeploy, try_catch, and_then, run_exec, run_spawn, console_log,
    console_error, pure, throw.
  destruct (exec "vercel whoami" w) as [[error|out] w1]; simpl;
    [discriminate|].
  destruct (spawn "vercel" [ "--prod" ] w1) as [[error|[[|p|p]|]] w2] eqn:E;
    simpl; try discriminate.
  intros [= <- <-]. exists out, w1. auto.
Qed.

(** An attempt spawns at most one child. *)
Lemma vercelDeploy_spawns_once (w w' : world) (r : Thrown.t + unit)
    (t : list action) :
  vercelDeploy exec spawn chalk w = (r, t, w') -> length (spawned t) <= 1.
Proof.
  unfold vercelDeploy, try_catch, and_then, run_exec, run_spawn, console_log,
    console_error, pure, throw.
  destruct (exec "vercel whoami" w) as [[error|out] w1]; simpl.
  - intros [= <- <- <-]. simpl. auto.
  - destruct (spawn "vercel" [ "--prod" ] w1) as [[error|[[|p|p]|]] w2];
      simpl; intros [= <- <- <-]; simpl; auto.
Qed.

(** A deployment with fixes that returns normally: its first attempt, or the
    retry after fixes reported as applied, has seen its child succeed. *)
Lemma deploy_with_fixes_fulfilled
    (w w' : world) (t : list action) :
  deployToVercelWithFixes exec spawn chalk attemptCommonFixes w
  = (inr tt, t, w') ->
  exists earlier from out after,
    (earlier = [] /\ from = w
     \/ exists error t1 w1 tf,
          vercelDeploy exec spawn chalk w = (inl error, t1, w1)
          /\ attemptCommonFixes w1 = (inr true, tf, from)
          /\ length (spawned t1) <= 1
          /\ earlier
             = (t1 ++ Log (chalk yellow (nl ++ "🔧 Attempting to fix common deployment issues..."))
                   :: tf ++ [ Log (chalk cyan (nl ++ "🔄 Retrying deployment...")) ])%list)
    /\ exec "vercel whoami" from = (inr out, after)
    /\ spawn "vercel" [ "--prod" ] after = (Closed (Some 0%Z), w')
    /\ t = (earlier
            ++ [ Run "vercel whoami";
                   Log (chalk cyan ("🚀 Deploying to Vercel..."));
                   Spawn "vercel" [ "--prod" ];
                   Log (chalk green ("✅ Deployment successful!")) ])%list.
Proof.
  unfold deployToVercelWithFixes, try_catch.
  destruct (vercelDeploy exec spawn chalk w) as [[[error|[]] t1] w1] eqn:E1.
  - unfold and_then at 1 2. unfold console_log at 1.
    destruct (attemptCommonFixes w1) as [[[error2|[|]] tf] w2] eqn:Ef;
      [discriminate| |unfold throw; discriminate].
    unfold and_then. unfold console_log.
    destruct (vercelDeploy exec spawn chalk w2) as [[[error3|[]] t3] w3] eqn:E3;
      [discriminate|].
    intros [= <- <-].
    destruct (vercelDeploy_fulfilled _ _ _ E3) as (out & after & Hwho & Hchild & ->).
    exists (t1 ++ Log (chalk yellow (nl ++ "🔧 Attempting to fix common deployment issues..."))
               :: tf ++ [ Log (chalk cyan (nl ++ "🔄 Retrying deployment...")) ])%list,
      w2, out, after.
    split; [right; exists error, t1, w1, tf;
            pose proof (vercelDeploy_spawns_once _ _ _ _ E1); auto|].
    split; [exact Hwho|]. split; [exact Hchild|].
    simpl. rewrite <- !app_assoc. simpl. rewrite <- !app_assoc. reflexivity.
  - intros [= <- <-].
    destruct (vercelDeploy_fulfilled _ _ _ E1) as (out & after & Hwho & Hchild & ->).
    exists [], w, out, after. auto.
Qed.

(** X15: [deployToVercelWithFixes] returns normally only after a
    [vercel --prod] child of its own closed with code 0: the child of its
    first attempt, started from the world the call was made in, or the
    child of the one retry, started from the world that the fixes, reported
    as applied, left after a first attempt that failed and spawned at most
    one child.  In that attempt [vercel whoami] succeeded, and the run ends
    with the spawn of the child and the line of success; the world is left
    as the child left it. *)
Theorem deployToVercelWithFixes_fulfilled
    (w w' : world) (t : list action) :
  deployToVercelWithFixes exec spawn chalk attemptCommonFixes w
  = (inr tt, t, w') ->
  exists earlier from out after,
    (earlier = [] /\ from = w
     \/ exists error t1 w1 tf,
          vercelDeploy exec spawn chalk w = (inl error, t1, w1)
          /\ attemptCommonFixes w1 = (inr true, tf, from)
          /\ length (spawned t1) <= 1
          /\ earlier
             = (t1 ++ Log (chalk yellow (nl ++ "🔧 Attempting to fix common deployment issues..."))
                   :: tf ++ [ Log (chalk cyan (nl ++ "🔄 Retrying deployment...")) ])%list)
    /\ exec "vercel whoami" from = (inr out, after)
    /\ spawn "vercel" [ "--prod" ] after = (Closed (Some 0%Z), w')
    /\ t = (earlier
            ++ [ Run "vercel whoami";
                   Log (chalk cyan ("🚀 Deploying to Vercel..."));
                   Spawn "vercel" [ "--prod" ];
                   Log (chalk green ("✅ Deployment successful!")) ])%list.
Proof. apply deploy_with_fixes_fulfilled. Qed.

(** X16: neither pipeline reports success on its own.  When [runMCPDeploy]
    or [mcpPipelineInitOrUpdate] returns normally, the scan returned,
    [gitStageCommitPush] (with the pipeline's commit message) returned
    normally in the world the scan left, and [deployToVercelWithFixes]
    returned normally in the world the Git step left; the run ends with
    what the deployment did, that is with the spawn of a [vercel --prod]
    child that closed with code 0 and the line of success, followed by the
    closing line of the pipeline. *)
Theorem pipelines_fulfilled
    (commitMessage : option string) (w w' : world) (t : list action) :
  runMCPDeploy exec execSync spawn chalk attemptCommonFixes
    scanForOrphanedFiles commitMessage w = (inr tt, t, w')
  \/ mcpPipelineInitOrUpdate exec execSync spawn chalk attemptCommonFixes
       scanForOrphanedFiles w = (inr tt, t, w') ->
  exists message opening closing files ts w0 report tg w1 td,
    (runMCPDeploy exec execSync spawn chalk attemptCommonFixes
       scanForOrphanedFiles commitMessage w = (inr tt, t, w')
     /\ message = match commitMessage with
                  | Some message => message
                  | None => "Deploy via MCP"
                  end
     /\ opening = chalk blue ("🚀 Starting MCP deployment pipeline...")
     /\ closing = chalk green ("🎉 Deployment complete!")
     \/ mcpPipelineInitOrUpdate exec execSync spawn chalk attemptCommonFixes
          scanForOrphanedFiles w = (inr tt, t, w')
        /\ message = "Update MCP configuration"
        /\ opening = chalk cyan ("🔧 Initializing/Updating MCP Pipeline...")
        /\ closing = chalk green ("✅ MCP Pipeline complete!"))
    /\ scanForOrphanedFiles w = (inr files, ts, w0)
    /\ gitStageCommitPush exec execSync message w0 = (inr tt, tg, w1)
    /\ deployToVercelWithFixes exec spawn chalk attemptCommonFixes w1
       = (inr tt, td, w')
    /\ commands report = []
    /\ t = (Log opening :: ts ++ report ++ tg ++ td ++ [ Log closing ])%list
    /\ exists earlier from out after,
         (earlier = [] /\ from = w1
          \/ exists error t1 w2 tf,
               vercelDeploy exec spawn chalk w1 = (inl error, t1, w2)
               /\ attemptCommonFixes w2 = (inr true, tf, from)
               /\ length (spawned t1) <= 1
               /\ earlier
                  = (t1 ++ Log (chalk yellow (nl ++ "🔧 Attempting to fix common deployment issues..."))
                        :: tf ++ [ Log (chalk cyan (nl ++ "🔄 Retrying deployment...")) ])%list)
         /\ exec "vercel whoami" from = (inr out, after)
         /\ spawn "vercel" [ "--prod" ] after = (Closed (Some 0%Z), w')
         /\ td = (earlier
                  ++ [ Run "vercel whoami";
                    Log (chalk cyan ("🚀 Deploying to Vercel..."));
                    Spawn "vercel" [ "--prod" ];
                    Log (chalk green ("✅ Deployment successful!")) ])%list.
Proof.
  intros [H|H].
  - pose proof H as Hrun. unfold runMCPDeploy, try_catch in H.
    match type of H with
    | context [match ?body w with _ => _ end] =>
        destruct (body w) as [[[failure|[]] tb] wb] eqn:Hbody
    end.
    + unfold and_then, console_error, console_log, throw, pure in H.
      destruct (includes "SSH" (Thrown.message failure)); discriminate.
    + injection H as <- <-.
      apply and_then_fulfilled in Hbody as (? & t0 & wl & t2 & Hlog & Hbody & ->).
      apply console_log_run in Hlog as (_ & -> & ->).
      apply and_then_fulfilled in Hbody as (files & ts & w0 & t4 & Hscan & Hbody & ->).
      apply and_then_fulfilled in Hbody as (? & report & wr & t6 & Hreport & Hbody & ->).
      apply report_run in Hreport as (_ & -> & Hreport).
      apply and_then_fulfilled in Hbody as ([] & tg & w1 & t8 & Hgit & Hbody & ->).
      apply and_then_fulfilled in Hbody as ([] & td & w2 & t10 & Hdeploy & Hlog & ->).
      apply console_log_run in Hlog as (_ & -> & ->).
      destruct (deploy_with_fixes_fulfilled _ _ _ Hdeploy)
        as (earlier & from & out & after & Hfrom & Hwho & Hchild & Htd).
      eexists _, _, _, files, ts, w0, report, tg, w1, td.
      split; [left; split; [exact Hrun|]; repeat split|].
      repeat (split; [eassumption || reflexivity|]).
      exists earlier, from, out, after. auto.
  - pose proof H as Hrun. unfold mcpPipelineInitOrUpdate in H.
    apply and_then_fulfilled in H as (? & t0 & wl & t2 & Hlog & H & ->).
    apply console_log_run in Hlog as (_ & -> & ->).
    apply and_then_fulfilled in H as (files & ts & w0 & t4 & Hscan & H & ->).
    apply and_then_fulfilled in H as (? & report & wr & t6 & Hreport & H & ->).
    apply notice_run in Hreport as (_ & -> & Hreport).
    apply and_then_fulfilled in H as ([] & tg & w1 & t8 & Hgit & H & ->).
    apply and_then_fulfilled in H as ([] & td & w2 & t10 & Hdeploy & Hlog & ->).
    apply console_log_run in Hlog as (_ & -> & ->).
    destruct (deploy_with_fixes_fulfilled _ _ _ Hdeploy)
      as (earlier & from & out & after & Hfrom & Hwho & Hchild & Htd).
    eexists _, _, _, files, ts, w0, report, tg, w1, td.
    split; [right; split; [exact Hrun|]; repeat split|].
    repeat (split; [eassumption || reflexivity|]).
    exists earlier, from, out, after. auto.
Qed.
End ScriptProperties.

(** * Properties of the project detectors *)

Lemma array_includes_In (array : list string) (x : string) :
  array_includes array x = true <-> In x array.
Proof.
  unfold array_includes. rewrite existsb_exists. split.
  - intros [y [Hy E]]. apply String.eqb_eq in E. now subst y.
  - intros H. exists x. split; [exact H | apply String.eqb_refl].
Qed.

Lemma array_some_In {A : Type} (array : list A) (test : A -> bool) :
  array_some array test = true <-> exists x, In x array /\ test x = true.
Proof. apply existsb_exists. Qed.

Lemma detect_In (entries : list (string * list string))
    (depKeys : list string) (tech : string) :
  In tech (ProjectContext.detect entries depKeys)
  <-> exists packages pkg,
        In (tech, packages) entries /\ In pkg packages /\ In pkg depKeys.
Proof.
  induction entries as [|[name packages] rest IH]; simpl.
  - split; [tauto | intros (? & ? & [] & _)].
  - destruct (array_some packages (fun pkg => array_includes depKeys pkg)) eqn:E.
    + simpl. rewrite IH. split.
      * intros [<- | (ps & pkg & H1 & H2 & H3)].
        -- apply array_some_In in E as (pkg & Hp & Hd).
           apply array_includes_In in Hd. exists packages, pkg. auto.
        -- exists ps, pkg. auto.
      * intros (ps & pkg & [[= <- <-] | H1] & H2 & H3); [now left|].
        right. exists ps, pkg. auto.
    + rewrite IH. split.
      * intros (ps & pkg & H1 & H2 & H3). exists ps, pkg. auto.
      * intros (ps & pkg & [[= <- <-] | H1] & H2 & H3).
        -- assert (array_some packages (fun pkg => array_includes depKeys pkg)
                   = true) as E'.
           { apply array_some_In. exists pkg. split; [exact H2|].
             now apply array_includes_In. }
           congruence.
        -- exists ps, pkg. auto.
Qed.

Lemma detect_NoDup (entries : list (string * list string))
    (depKeys : list string) :
  NoDup (map fst entries) -> NoDup (ProjectContext.detect entries depKeys).
Proof.
  induction entries as [|[name packages] rest IH]; simpl; intros H.
  - constructor.
  - inversion H as [|? ? Hout Hrest]; subst.
    destruct (array_some packages (fun pkg => array_includes depKeys pkg));
      [|now apply IH].
    constructor; [|now apply IH].
    intros Hin. apply detect_In in Hin as (ps & pkg & H1 & _).
    apply Hout. apply (in_map fst) in H1. exact H1.
Qed.

Lemma techMap_NoDup : NoDup (map fst ProjectContext.techMap).
Proof.
  simpl. repeat (constructor; [simpl; intuition discriminate|]). constructor.
Qed.

(** X17: a technology is reported exactly when one of its packages is a
    dependency, and it is reported once, however many of its packages are
    installed. *)
Theorem detectTechnologies_spec (depKeys : list string) :
  NoDup (ProjectContext.detectTechnologies depKeys)
  /\ forall tech,
       In tech (ProjectContext.detectTechnologies depKeys)
       <-> exists packages pkg,
             In (tech, packages) ProjectContext.techMap
             /\ In pkg packages /\ In pkg depKeys.
Proof.
  split.
  - apply detect_NoDup, techMap_NoDup.
  - intros tech. apply detect_In.
Qed.

(** X18: the framework that the scan names is one of the technologies it
    lists, except Gatsby: Gatsby can be the framework of a project, but it
    is never among its technologies. *)
Theorem detectFramework_is_technology (depKeys : list string) (framework : string) :
  ProjectContext.detectFramework depKeys = Some framework ->
  (framework = "Gatsby" \/ In framework (ProjectContext.detectTechnologies depKeys))
  /\ ~ In "Gatsby" (ProjectContext.detectTechnologies depKeys).
Proof.
  intros H. split.
  - revert H. unfold ProjectContext.detectFramework.
    repeat
      (match goal with
       | |- context [if array_includes depKeys ?pkg then _ else _] =>
           destruct (array_includes depKeys pkg) eqn:?
       end);
      intros [= <-]; try (now left); right;
      apply detect_In;
      match goal with
      | E : array_includes depKeys ?pkg = true |- _ =>
          apply array_includes_In in E; eexists; exists pkg;
          split; [simpl; auto 20 | split; [simpl; auto | exact E]]
      end.
  - intros Hin. apply detect_In in Hin as (ps & pkg & H1 & _).
    simpl in H1. intuition discriminate.
Qed.

(** X19: whenever the scan names a framework, the project type it derives
    from it is [frontend] or [backend], never [unknown]. *)
Theorem scanned_projectType_known (depKeys : list string) (kind : string) :
  ProjectContext.scanned_projectType depKeys = Some kind ->
  kind = "frontend" \/ kind = "backend".
Proof.
  unfold ProjectContext.scanned_projectType, ProjectContext.detectFramework.
  repeat
    (match goal with
     | |- context [if array_includes depKeys ?pkg then _ else _] =>
         destruct (array_includes depKeys pkg)
     end);
    intros [= <-]; auto.
Qed.

Section OrchestratorOnScan.

Variable toLowerCase : string -> string.
Hypothesis toLowerCase_ascii :
  forall s, DeploymentOrchestrator.is_ascii s = true ->
            toLowerCase s = DeploymentOrchestrator.ascii_lower s.

Lemma array_some_detect (entries : list (string * list string))
    (depKeys : list string) (test : string -> bool) :
  array_some (ProjectContext.detect entries depKeys) test
  = existsb
      (fun entry =>
         array_some (snd entry) (fun pkg => array_includes depKeys pkg)
         && test (fst entry))
      entries.
Proof.
  induction entries as [|[name packages] rest IH]; simpl; [reflexivity|].
  destruct (array_some packages (fun pkg => array_includes depKeys pkg)); simpl.
  - unfold array_some in *. simpl. now rewrite IH.
  - exact IH.
Qed.

(** The orchestrator's verdict on what the scan lists, read off the
    dependencies. *)
Lemma orchestrator_on_scan (depKeys : list string) :
  DeploymentOrchestrator.detectProjectType toLowerCase
    (Some (ProjectContext.scanned_technologies depKeys))
  = let hasFrontend :=
      array_some [ "react"; "react-dom"; "vue"; "@angular/core"; "next" ]
        (array_includes depKeys) in
    let hasBackend :=
      array_some [ "express"; "fastify" ] (array_includes depKeys) in
    if hasFrontend && hasBackend then DeploymentOrchestrator.fullstack
    else if hasFrontend then DeploymentOrchestrator.frontend
    else if hasBackend then DeploymentOrchestrator.backend
    else DeploymentOrchestrator.frontend.
Proof.
  unfold DeploymentOrchestrator.detectProjectType,
    DeploymentOrchestrator.technologies_some,
    ProjectContext.scanned_technologies, ProjectContext.detectTechnologies.
  rewrite !array_some_detect. unfold ProjectContext.techMap.
  cbn [existsb fst snd].
  repeat
    (match goal with
     | |- context [toLowerCase ?s] => rewrite (toLowerCase_ascii s eq_refl)
     end).
  repeat
    (match goal with
     | |- context [array_includes ?l (DeploymentOrchestrator.ascii_lower ?s)] =>
         let v := eval vm_compute in
                    (array_includes l (DeploymentOrchestrator.ascii_lower s)) in
         change (array_includes l (DeploymentOrchestrator.ascii_lower s)) with v
     end).
  rewrite ?andb_false_r, ?andb_true_r, ?orb_false_r. cbn [orb].
  unfold array_some. cbn [existsb].
  rewrite ?orb_false_r.
  now rewrite <- !orb_assoc.
Qed.

(** X20: the orchestrator calls a scanned project [backend] exactly when
    [express] or [fastify] is a dependency and none of [react],
    [react-dom], [vue], [@angular/core] and [next] is; [fullstack] when
    both kinds are present; [frontend] otherwise.  NestJS, which the scan
    lists under that name, Koa and Gatsby play no part. *)
Theorem detectProjectType_on_scan (depKeys : list string) :
  let hasFrontend :=
    array_some [ "react"; "react-dom"; "vue"; "@angular/core"; "next" ]
      (array_includes depKeys) in
  let hasBackend :=
    array_some [ "express"; "fastify" ] (array_includes depKeys) in
  DeploymentOrchestrator.detectProjectType toLowerCase
    (Some (ProjectContext.scanned_technologies depKeys))
  = if hasFrontend && hasBackend then DeploymentOrchestrator.fullstack
    else if hasFrontend then DeploymentOrchestrator.frontend
    else if hasBackend then DeploymentOrchestrator.backend
    else DeploymentOrchestrator.frontend.
Proof. exact (orchestrator_on_scan depKeys). Qed.

(** X21: the two classifications disagree on NestJS: when the scan names
    NestJS as the framework it records the project type [backend], while
    the orchestrator, working from the technologies of the same scan,
    deploys the project as [frontend]. *)
Theorem NestJS_is_deployed_as_frontend (depKeys : list string) :
  ProjectContext.detectFramework depKeys = Some "NestJS" ->
  ProjectContext.scanned_projectType depKeys = Some "backend"
  /\ DeploymentOrchestrator.detectProjectType toLowerCase
       (Some (ProjectContext.scanned_technologies depKeys))
     = DeploymentOrchestrator.frontend.
Proof.
  intros H. split.
  - unfold ProjectContext.scanned_projectType. now rewrite H.
  - rewrite orchestrator_on_scan. revert H.
    unfold ProjectContext.detectFramework. cbn.
    repeat
      (match goal with
       | |- context [array_includes depKeys ?pkg] =>
           generalize (array_includes depKeys pkg); intros ?
       end).
    repeat
      (match goal with
       | b : bool |- _ => destruct b
       end; cbn; try discriminate; try reflexivity).
Qed.

End OrchestratorOnScan.

(** * Properties of the version helpers *)

Lemma append_assoc (a b c : string) : (a ++ b) ++ c = a ++ b ++ c.
Proof. induction a as [|x a IH]; simpl; [reflexivity | now rewrite IH]. Qed.

Lemma digits_spec (s run after : string) :
  SystemCheck.digits s = (run, after) ->
  s = run ++ after /\ all_digits run = true /\ starts_with_digit after = false.
Proof.
  revert run after. induction s as [|c s IH]; simpl; intros run after.
  - intros [= <- <-]. auto.
  - destruct (SystemCheck.is_digit c) eqn:E.
    + destruct (SystemCheck.digits s) as [run' after'].
      intros [= <- <-]. destruct (IH run' after' eq_refl) as (-> & H1 & H2).
      simpl. rewrite E, H1. auto.
    + intros [= <- <-]. simpl. auto.
Qed.

Lemma digits_app (run after : string) :
  all_digits run = true -> starts_with_digit after = false ->
  SystemCheck.digits (run ++ after) = (run, after).
Proof.
  intros Hrun Hafter. induction run as [|c run IH]; simpl in *.
  - destruct after as [|c after]; simpl in *; [reflexivity|now rewrite Hafter].
  - apply andb_true_iff in Hrun as [-> Hrun]. now rewrite (IH Hrun).
Qed.

Lemma numeral_inv (s : string) :
  numeral s = true -> all_digits s = true /\ s <> EmptyString.
Proof.
  unfold numeral. intros H. apply andb_true_iff in H as [H1 H2].
  split; [exact H1|]. intros ->. discriminate.
Qed.

Lemma match_here_spec (s version : string) :
  SystemCheck.match_here s = Some version ->
  exists after major minor patch,
    s = version ++ after
    /\ version = major ++ "." ++ minor ++ "." ++ patch
    /\ numeral major = true /\ numeral minor = true /\ numeral patch = true.
Proof.
  unfold SystemCheck.match_here.
  destruct (SystemCheck.digits s) as [major r1] eqn:E1.
  apply digits_spec in E1 as (-> & Hmajor & _).
  destruct major as [|m major]; [discriminate|].
  destruct r1 as [|dot1 r1]; [discriminate|].
  destruct (SystemCheck.is_dot dot1) eqn:D1; [|discriminate].
  destruct (SystemCheck.digits r1) as [minor r2] eqn:E2.
  apply digits_spec in E2 as (-> & Hminor & _).
  destruct minor as [|n minor]; [discriminate|].
  destruct r2 as [|dot2 r2]; [discriminate|].
  destruct (SystemCheck.is_dot dot2) eqn:D2; [|discriminate].
  destruct (SystemCheck.digits r2) as [patch r3] eqn:E3.
  apply digits_spec in E3 as (-> & Hpatch & _).
  destruct patch as [|p patch]; [discriminate|].
  intros [= <-].
  assert (Hdot : forall c, SystemCheck.is_dot c = true -> c = "."%char).
  { intros c H. unfold SystemCheck.is_dot in H. apply Nat.eqb_eq in H.
    rewrite <- (ascii_nat_embedding c), H. reflexivity. }
  apply Hdot in D1, D2. subst dot1 dot2.
  exists r3, (String m major), (String n minor), (String p patch).
  unfold numeral. rewrite Hmajor, Hminor, Hpatch.
  repeat split.
  change (String m major ++ "." ++ String n minor ++ "." ++ String p patch ++ r3
          = (String m major ++ "." ++ String n minor ++ "." ++ String p patch)
            ++ r3).
  now rewrite !append_assoc.
Qed.

Lemma extractVersion_unfold (s : string) :
  SystemCheck.extractVersion s
  = match SystemCheck.match_here s with
    | Some version => Some version
    | None =>
        match s with
        | EmptyString => None
        | String _ rest => SystemCheck.extractVersion rest
        end
    end.
Proof. destruct s; reflexivity. Qed.

(** X22: the version that [extractVersion] finds is a piece of the text it
    was given, and has the shape digits, dot, digits, dot, digits with no
    group empty. *)
Theorem extractVersion_shape (versionString version : string) :
  SystemCheck.extractVersion versionString = Some version ->
  exists before after major minor patch,
    versionString = before ++ version ++ after
    /\ version = major ++ "." ++ minor ++ "." ++ patch
    /\ numeral major = true /\ numeral minor = true /\ numeral patch = true.
Proof.
  induction versionString as [|c rest IH]; simpl.
  - discriminate.
  - destruct (SystemCheck.match_here (String c rest)) as [found|] eqn:E.
    + intros [= <-].
      apply match_here_spec in E as (after & major & minor & patch & H & Hs).
      exists EmptyString, after, major, minor, patch. auto.
    + intros H.
      destruct (IH H) as (before & after & major & minor & patch & -> & Hs).
      exists (String c before), after, major, minor, patch. auto.
Qed.

(** X23: a well-formed version is found where it stands: when no digit
    comes before it and no digit follows it directly, [extractVersion]
    returns it whole, whatever else surrounds it. *)
Theorem extractVersion_finds
    (before major minor patch after : string) :
  no_digit before = true ->
  numeral major = true -> numeral minor = true -> numeral patch = true ->
  starts_with_digit after = false ->
  SystemCheck.extractVersion
    (before ++ (major ++ "." ++ minor ++ "." ++ patch) ++ after)
  = Some (major ++ "." ++ minor ++ "." ++ patch).
Proof.
  intros Hbefore Hmajor Hminor Hpatch Hafter.
  apply numeral_inv in Hmajor as [Hmajor Nmajor].
  apply numeral_inv in Hminor as [Hminor Nminor].
  apply numeral_inv in Hpatch as [Hpatch Npatch].
  assert (Hhere :
    SystemCheck.match_here ((major ++ "." ++ minor ++ "." ++ patch) ++ after)
    = Some (major ++ "." ++ minor ++ "." ++ patch)).
  { unfold SystemCheck.match_here.
    rewrite !append_assoc.
    rewrite (digits_app major ("." ++ minor ++ "." ++ patch ++ after)
               Hmajor eq_refl).
    destruct major as [|m major]; [congruence|]. simpl.
    rewrite (digits_app minor (String "." (patch ++ after)) Hminor eq_refl).
    destruct minor as [|n minor]; [congruence|]. simpl.
    rewrite (digits_app patch after Hpatch Hafter).
    destruct patch as [|p patch]; [congruence|]. reflexivity. }
  induction before as [|c before IH].
  - change (EmptyString ++ ?x) with x.
    now rewrite extractVersion_unfold, Hhere.
  - simpl in Hbefore. apply andb_true_iff in Hbefore as [Hc Hbefore].
    apply negb_true_iff in Hc.
    change (String c before ++ ?x) with (String c (before ++ x)).
    rewrite extractVersion_unfold.
    replace (SystemCheck.match_here
               (String c (before ++ (major ++ "." ++ minor ++ "." ++ patch)
                          ++ after)))
      with (@None string)
      by (unfold SystemCheck.match_here; simpl; now rewrite Hc).
    exact (IH Hbefore).
Qed.

Lemma split_dot_not_nil (s : string) : SystemCheck.split_dot s <> [].
Proof.
  destruct s as [|c s]; simpl; [discriminate|].
  destruct (SystemCheck.is_dot c); [discriminate|].
  destruct (SystemCheck.split_dot s); discriminate.
Qed.

Lemma split_dot_app (a b : string) :
  SystemCheck.split_dot (a ++ "." ++ b)
  = (SystemCheck.split_dot a ++ SystemCheck.split_dot b)%list.
Proof.
  induction a as [|c a IH]; simpl.
  - reflexivity.
  - destruct (SystemCheck.is_dot c).
    + simpl. now rewrite <- IH.
    + simpl in IH. rewrite IH.
      pose proof (split_dot_not_nil a) as Ha.
      destruct (SystemCheck.split_dot a) as [|first others]; [congruence|].
      reflexivity.
Qed.

Section CompareProperties.

Variable number : Type.
Variable Number : string -> number.
Variable zero : number.
Variable isFalsy : number -> bool.
Variable gt : number -> number -> bool.
Variable lt : number -> number -> bool.

(** What the comparisons of the engine's numbers satisfy. *)
Hypothesis gt_lt : forall x y, gt x y = lt y x.
Hypothesis lt_asym : forall x y, lt x y = true -> lt y x = false.

Lemma lt_irrefl (x : number) : lt x x = false.
Proof.
  destruct (lt x x) eqn:E; [|reflexivity].
  rewrite (lt_asym x x E) in E. discriminate.
Qed.

Lemma compare_from_refl (rounds : nat) (parts : list number) :
  SystemCheck.compare_from zero isFalsy gt lt rounds parts parts = 0%Z.
Proof.
  revert parts. induction rounds as [|rounds IH]; intros parts; simpl.
  - reflexivity.
  - now rewrite gt_lt, lt_irrefl, IH.
Qed.

Lemma compare_from_swap (rounds : nat) (parts1 parts2 : list number) :
  SystemCheck.compare_from zero isFalsy gt lt rounds parts2 parts1
  = (- SystemCheck.compare_from zero isFalsy gt lt rounds parts1 parts2)%Z.
Proof.
  revert parts1 parts2.
  induction rounds as [|rounds IH]; intros parts1 parts2; simpl.
  - reflexivity.
  - set (a := SystemCheck.or_zero zero isFalsy (hd_error parts1)).
    set (b := SystemCheck.or_zero zero isFalsy (hd_error parts2)).
    rewrite (gt_lt b a), (gt_lt a b).
    destruct (lt a b) eqn:Hab.
    + now rewrite (lt_asym a b Hab).
    + destruct (lt b a); [reflexivity | apply IH].
Qed.

(** X24: a version compares equal to itself, and swapping the two
    versions flips the sign of the result, whatever the versions are made
    of. *)
Theorem compareVersions_antisymmetric (version1 version2 : string) :
  SystemCheck.compareVersions Number zero isFalsy gt lt version1 version1 = 0%Z
  /\ SystemCheck.compareVersions Number zero isFalsy gt lt version2 version1
     = (- SystemCheck.compareVersions Number zero isFalsy gt lt
            version1 version2)%Z.
Proof.
  unfold SystemCheck.compareVersions. split.
  - apply compare_from_refl.
  - rewrite Nat.max_comm. apply compare_from_swap.
Qed.

Lemma compare_from_padded (parts : list number) (last : number) :
  isFalsy last = true ->
  SystemCheck.compare_from zero isFalsy gt lt (S (length parts))
    (parts ++ [last]) parts
  = 0%Z.
Proof.
  intros Hlast. induction parts as [|part parts IH].
  - simpl. now rewrite Hlast, gt_lt, lt_irrefl.
  - cbn [length app SystemCheck.compare_from hd_error tl].
    now rewrite gt_lt, lt_irrefl.
Qed.

(** X25: a missing part counts as zero: when the engine reads the part [0]
    as a zero, a version and the same version with [.0] appended compare
    equal. *)
Theorem compareVersions_trailing_zero (version : string) :
  isFalsy (Number "0") = true ->
  SystemCheck.compareVersions Number zero isFalsy gt lt (version ++ ".0") version
  = 0%Z.
Proof.
  intros Hzero. unfold SystemCheck.compareVersions.
  change (version ++ ".0") with (version ++ "." ++ "0").
  rewrite split_dot_app.
  change (SystemCheck.split_dot "0") with [ "0" ].
  rewrite map_app. change (map Number [ "0" ]) with [ Number "0" ].
  set (parts := map Number (SystemCheck.split_dot version)).
  replace (Nat.max (length (parts ++ [ Number "0" ])) (length parts))
    with (S (length parts)).
  - now apply compare_from_padded.
  - rewrite length_app. simpl. rewrite Nat.add_1_r.
    symmetry. apply Nat.max_l, Nat.le_succ_diag_r.
Qed.

End CompareProperties.

(** * The scripts on canned worlds *)

Local Abbreviation git_on table :=
  (gitStageCommitPush (Canned.exec table) (Canned.execSync table)).
Local Abbreviation deploy_on table :=
  (deployToVercelWithFixes (Canned.exec table) (Canned.spawn table)
     Canned.chalk Canned.attemptCommonFixes).
Local Abbreviation runMCPDeploy_on table :=
  (runMCPDeploy (Canned.exec table) (Canned.execSync table)
     (Canned.spawn table) Canned.chalk Canned.attemptCommonFixes
     Canned.scanForOrphanedFiles).

Example authenticated_on_stderr_only :
  returned
    (checkGitHubSSHConnection
       (fun (_ : string) (w : unit) =>
          (Some (Thrown.make "Command failed" (Some "Warning: added host key")
                   (Some "Hi! You've successfully authenticated.")), w))
       tt)
  = inr false.
Proof. reflexivity. Qed.

Example blank_status :
  blank (" " ++ nl ++ String (ascii_of_nat 9) EmptyString) = true
  /\ blank (String (ascii_of_nat 226)
              (String (ascii_of_nat 128) (String (ascii_of_nat 131) " ")))
     = true
  /\ blank " M src/index.ts" = false.
Proof. repeat split. Qed.

Lemma callTool_rejected_witness :
  (~ In "nonexistent-tool" registered_tool_names
   /\ Error "Unknown tool: nonexistent-tool"
      = Error ("Unknown tool: " ++ "nonexistent-tool"))
  \/ (In "nonexistent-tool" registered_tool_names
      /\ template_argument_converts IntegerNumbers.toString
           {| name := "nonexistent-tool"; arguments := Some [] |} = false
      /\ Error "Unknown tool: nonexistent-tool" = cannot_convert).
Proof.
  apply (callTool_rejected Z IntegerNumbers.isFalsy IntegerNumbers.toString
           {| name := "nonexistent-tool"; arguments := Some [] |}
           (Error "Unknown tool: nonexistent-tool")).
  reflexivity.
Defined.

Lemma callTool_falsy_argument_witness :
  callTool' {| name := "analyze-code";
               arguments := Some [ ("code", JString "x");
                                   ("language", JString EmptyString) ] |}
  = callTool' {| name := "analyze-code"; arguments := None |}.
Proof.
  apply (callTool_falsy_argument Z IntegerNumbers.isFalsy
           IntegerNumbers.toString "analyze-code" "language"
           (Some [ ("code", JString "x"); ("language", JString EmptyString) ]));
    reflexivity.
Defined.

Lemma generate_tests_names_framework_witness :
  exists report,
    callTool' {| name := "generate-tests";
                 arguments := Some [ ("code", JString "x");
                                     ("framework", JString "mocha") ] |}
    = Fulfilled {| content := [ TextContent.make "text" report ] |}
    /\ prefix ("Generated " ++ "mocha" ++ " tests:") report = true
    /\ includes "describe(" report = true.
Proof.
  apply (generate_tests_names_framework Z IntegerNumbers.isFalsy
           IntegerNumbers.toString
           [ ("code", JString "x"); ("framework", JString "mocha") ]
           (JString "mocha") "mocha");
    reflexivity.
Defined.

Lemma gitStageCommitPush_without_ssh_witness :
  git_on Canned.offline "Update" tt
  = (inr tt,
     ([ Run "ssh-add -l" ] ++ [ Run "ssh -T git@github.com 2>&1" ]
      ++ [ Log (nl ++ "❌ SSH is not properly configured for GitHub.");
           Log ("Please run the SSH setup wizard first: npm run setup-ssh" ++ nl) ])%list,
     tt)
  /\ commands (trace_of (git_on Canned.offline "Update" tt))
     = [ "ssh-add -l"; "ssh -T git@github.com 2>&1" ].
Proof.
  apply (gitStageCommitPush_without_ssh unit
           (Canned.exec Canned.offline) (Canned.execSync Canned.offline)
           "Update" tt tt tt false false);
    reflexivity.
Defined.

Lemma gitStageCommitPush_rejected_witness :
  exists before command from,
    trace_of (git_on Canned.unpushed "Update" tt)
    = (before
       ++ [ Run command; LogError ("❌ Git operation failed:") Canned.refused ])%list
    /\ logged_errors before = []
    /\ In (command, from)
         [ ("git add -A", tt);
           ("git status --short", tt);
           ("git commit -m " ++ dq ++ "Update" ++ dq, tt);
           ("git push", tt) ]
    /\ Canned.exec Canned.unpushed command from = (inl Canned.refused, tt)
    /\ In command (skipn 2 (git_commands "Update")).
Proof.
  apply (gitStageCommitPush_rejected unit
           (Canned.exec Canned.unpushed) (Canned.execSync Canned.unpushed)
           "Update" tt tt Canned.refused).
  reflexivity.
Defined.

Lemma gitStageCommitPush_fulfilled_witness :
  logged_errors (trace_of (git_on Canned.working "Update" tt)) = []
  /\ (commands (trace_of (git_on Canned.working "Update" tt))
      = firstn 2 (git_commands "Update")
      \/ commands (trace_of (git_on Canned.working "Update" tt))
         = firstn 4 (git_commands "Update")
      \/ commands (trace_of (git_on Canned.working "Update" tt))
         = git_commands "Update").
Proof.
  apply (gitStageCommitPush_fulfilled unit
           (Canned.exec Canned.working) (Canned.execSync Canned.working)
           "Update" tt tt).
  reflexivity.
Defined.

Lemma gitStageCommitPush_nothing_to_commit_witness :
  git_on Canned.clean "Update" tt
  = (inr tt,
     ([ Run "ssh-add -l" ] ++ [ Run "ssh -T git@github.com 2>&1" ]
      ++ [ Log ("📦 Staging all changes...");
           Run "git add -A";
           Run "git status --short";
           Log ("✅ No changes to commit") ])%list,
     tt).
Proof.
  apply (gitStageCommitPush_nothing_to_commit unit
           (Canned.exec Canned.clean) (Canned.execSync Canned.clean)
           "Update" tt tt tt tt tt
           [ Run "ssh-add -l" ] [ Run "ssh -T git@github.com 2>&1" ]
           (EmptyString, EmptyString) nl EmptyString);
    reflexivity.
Defined.

Lemma runMCPDeploy_rejected_witness :
  exists before,
    trace_of (runMCPDeploy_on Canned.unpushed None tt)
    = (before
       ++ [ LogError ("❌ Deployment failed:") Canned.refused;
            Log (nl ++ "💡 Tip: Make sure your SSH agent is running and GitHub SSH key is added.");
            Log ("   Run: eval " ++ dq ++ "$(ssh-agent -s)" ++ dq ++ " && ssh-add ~/.ssh/id_rsa") ])%list
    /\ ((exists ts,
           Canned.scanForOrphanedFiles tt = (inl Canned.refused, ts, tt)
           /\ before = Log ("🚀 Starting MCP deployment pipeline...") :: ts)
        \/ (exists files ts w0 report tg,
              Canned.scanForOrphanedFiles tt = (inr files, ts, w0)
              /\ git_on Canned.unpushed "Deploy via MCP" w0
                 = (inl Canned.refused, tg, tt)
              /\ commands report = []
              /\ before
                 = (Log ("🚀 Starting MCP deployment pipeline...")
                    :: ts ++ report ++ tg)%list)
        \/ (exists files ts w0 report tg w1 td,
              Canned.scanForOrphanedFiles tt = (inr files, ts, w0)
              /\ git_on Canned.unpushed "Deploy via MCP" w0 = (inr tt, tg, w1)
              /\ deploy_on Canned.unpushed w1 = (inl Canned.refused, td, tt)
              /\ commands report = []
              /\ before
                 = (Log ("🚀 Starting MCP deployment pipeline...")
                    :: ts ++ report ++ tg ++ td)%list)).
Proof.
  apply (runMCPDeploy_rejected unit
           (Canned.exec Canned.unpushed) (Canned.execSync Canned.unpushed)
           (Canned.spawn Canned.unpushed) Canned.chalk
           Canned.attemptCommonFixes Canned.scanForOrphanedFiles
           None tt tt Canned.refused).
  reflexivity.
Defined.

(** A push that fails without a word on SSH: the error is logged, and no
    advice follows. *)
Example no_advice_without_SSH :
  returned (runMCPDeploy_on Canned.cut_off None tt) = inl Canned.hung_up
  /\ includes "SSH" (Thrown.message Canned.hung_up) = false
  /\ last (trace_of (runMCPDeploy_on Canned.cut_off None tt)) (Log EmptyString)
     = LogError ("❌ Deployment failed:") Canned.hung_up
  /\ logged_errors (trace_of (runMCPDeploy_on Canned.cut_off None tt))
     = [ Canned.hung_up; Canned.hung_up ].
Proof. repeat split. Qed.


Local Abbreviation redeploy :=
  (deployToVercelWithFixes Relinked.exec Relinked.spawn Canned.chalk
     Relinked.attemptCommonFixes).

(** With a stale [.vercel] directory the first child closes with code 1,
    the fix removes the directory, and the retry succeeds. *)
Example retry_after_fix :
  redeploy true
  = (inr tt,
     [ Run "vercel whoami";
       Log ("🚀 Deploying to Vercel...");
       Spawn "vercel" [ "--prod" ];
       Log (nl ++ "🔧 Attempting to fix common deployment issues...");
       Log ("🧹 Cleaning .vercel directory...");
       Log (nl ++ "🔄 Retrying deployment...");
       Run "vercel whoami";
       Log ("🚀 Deploying to Vercel...");
       Spawn "vercel" [ "--prod" ];
       Log ("✅ Deployment successful!") ],
     false).
Proof. reflexivity. Qed.

Lemma deployToVercelWithFixes_fulfilled_witness :
  exists earlier from out after,
    (earlier = [] /\ from = true
     \/ exists error t1 w1 tf,
          vercelDeploy Relinked.exec Relinked.spawn Canned.chalk true
          = (inl error, t1, w1)
          /\ Relinked.attemptCommonFixes w1 = (inr true, tf, from)
          /\ length (spawned t1) <= 1
          /\ earlier
             = (t1 ++ Log (nl ++ "🔧 Attempting to fix common deployment issues...")
                   :: tf ++ [ Log (nl ++ "🔄 Retrying deployment...") ])%list)
    /\ Relinked.exec "vercel whoami" from = (inr out, after)
    /\ Relinked.spawn "vercel" [ "--prod" ] after = (Closed (Some 0%Z), false)
    /\ trace_of (redeploy true)
       = (earlier
          ++ [ Run "vercel whoami";
                    Log ("🚀 Deploying to Vercel...");
                    Spawn "vercel" [ "--prod" ];
                    Log ("✅ Deployment successful!") ])%list.
Proof.
  apply (deployToVercelWithFixes_fulfilled bool
           Relinked.exec Relinked.spawn Canned.chalk
           Relinked.attemptCommonFixes true false).
  reflexivity.
Defined.

Lemma pipelines_fulfilled_witness :
  exists message opening closing files ts w0 report tg w1 td,
    (runMCPDeploy_on Canned.working None tt
     = (inr tt, trace_of (runMCPDeploy_on Canned.working None tt), tt)
     /\ message = "Deploy via MCP"
     /\ opening = "🚀 Starting MCP deployment pipeline..."
     /\ closing = "🎉 Deployment complete!"
     \/ mcpPipelineInitOrUpdate
          (Canned.exec Canned.working) (Canned.execSync Canned.working)
          (Canned.spawn Canned.working) Canned.chalk
          Canned.attemptCommonFixes Canned.scanForOrphanedFiles tt
        = (inr tt, trace_of (runMCPDeploy_on Canned.working None tt), tt)
        /\ message = "Update MCP configuration"
        /\ opening = "🔧 Initializing/Updating MCP Pipeline..."
        /\ closing = "✅ MCP Pipeline complete!")
    /\ Canned.scanForOrphanedFiles tt = (inr files, ts, w0)
    /\ git_on Canned.working message w0 = (inr tt, tg, w1)
    /\ deploy_on Canned.working w1 = (inr tt, td, tt)
    /\ commands report = []
    /\ trace_of (runMCPDeploy_on Canned.working None tt)
       = (Log opening :: ts ++ report ++ tg ++ td ++ [ Log closing ])%list
    /\ exists earlier from out after,
         (earlier = [] /\ from = w1
          \/ exists error t1 w2 tf,
               vercelDeploy (Canned.exec Canned.working)
                 (Canned.spawn Canned.working) Canned.chalk w1
               = (inl error, t1, w2)
               /\ Canned.attemptCommonFixes w2 = (inr true, tf, from)
               /\ length (spawned t1) <= 1
               /\ earlier
                  = (t1 ++ Log (nl ++ "🔧 Attempting to fix common deployment issues...")
                        :: tf ++ [ Log (nl ++ "🔄 Retrying deployment...") ])%list)
         /\ Canned.exec Canned.working "vercel whoami" from = (inr out, after)
         /\ Canned.spawn Canned.working "vercel" [ "--prod" ] after
            = (Closed (Some 0%Z), tt)
         /\ td = (earlier
                  ++ [ Run "vercel whoami";
                    Log ("🚀 Deploying to Vercel...");
                    Spawn "vercel" [ "--prod" ];
                    Log ("✅ Deployment successful!") ])%list.
Proof.
  apply (pipelines_fulfilled unit
           (Canned.exec Canned.working) (Canned.execSync Canned.working)
           (Canned.spawn Canned.working) Canned.chalk
           Canned.attemptCommonFixes Canned.scanForOrphanedFiles
           None tt tt).
  left. reflexivity.
Defined.

Example gatsby_is_no_technology :
  ProjectContext.detectFramework [ "gatsby"; "react"; "react-dom" ] = Some "Gatsby"
  /\ ProjectContext.detectTechnologies [ "gatsby"; "react"; "react-dom" ]
     = [ "React" ].
Proof. split; reflexivity. Qed.

Lemma detectFramework_is_technology_witness :
  ("React" = "Gatsby"
   \/ In "React" (ProjectContext.detectTechnologies [ "typescript"; "react" ]))
  /\ ~ In "Gatsby" (ProjectContext.detectTechnologies [ "typescript"; "react" ]).
Proof.
  apply (detectFramework_is_technology [ "typescript"; "react" ] "React").
  reflexivity.
Defined.

Lemma scanned_projectType_known_witness :
  "backend" = "frontend" \/ "backend" = "backend".
Proof.
  apply (scanned_projectType_known [ "express"; "pg" ] "backend").
  reflexivity.
Defined.

Lemma detectProjectType_on_scan_witness :
  DeploymentOrchestrator.detectProjectType DeploymentOrchestrator.ascii_lower
    (Some (ProjectContext.scanned_technologies [ "express"; "pg"; "typescript" ]))
  = DeploymentOrchestrator.backend.
Proof.
  apply (detectProjectType_on_scan DeploymentOrchestrator.ascii_lower
           (fun s _ => eq_refl) [ "express"; "pg"; "typescript" ]).
Defined.

Lemma NestJS_is_deployed_as_frontend_witness :
  ProjectContext.scanned_projectType [ "@nestjs/core"; "typescript" ]
  = Some "backend"
  /\ DeploymentOrchestrator.detectProjectType DeploymentOrchestrator.ascii_lower
       (Some (ProjectContext.scanned_technologies [ "@nestjs/core"; "typescript" ]))
     = DeploymentOrchestrator.frontend.
Proof.
  apply (NestJS_is_deployed_as_frontend DeploymentOrchestrator.ascii_lower
           (fun s _ => eq_refl) [ "@nestjs/core"; "typescript" ]).
  reflexivity.
Defined.

(** ** Versions *)

Example extractVersion_examples :
  SystemCheck.extractVersion "git version 2.34.1" = Some "2.34.1"
  /\ SystemCheck.extractVersion "v18.17.0" = Some "18.17.0"
  /\ SystemCheck.extractVersion "Vercel CLI 32.5" = None
  /\ SystemCheck.extractVersion
       "OpenSSH_8.9p1 Ubuntu-3ubuntu0.1, OpenSSL 3.0.2 15 Mar 2022"
     = Some "3.0.2".
Proof. repeat split. Qed.

Example compareVersions_examples :
  DecimalNumbers.compareVersions "2.34.1" "2.25.0" = 1%Z
  /\ DecimalNumbers.compareVersions "1.9.0" "1.10.0" = (-1)%Z
  /\ DecimalNumbers.compareVersions "16" "16.0.0" = 0%Z.
Proof. repeat split. Qed.

Lemma Z_gtb_ltb (x y : Z) : Z.gtb x y = Z.ltb y x.
Proof. apply Z.gtb_ltb. Qed.

Lemma Z_ltb_asym (x y : Z) : Z.ltb x y = true -> Z.ltb y x = false.
Proof.
  intros H. apply Z.ltb_lt in H. apply Z.ltb_ge. now apply Z.lt_le_incl.
Qed.

Lemma extractVersion_shape_witness :
  exists before after major minor patch,
    "git version 2.34.1" = before ++ "2.34.1" ++ after
    /\ "2.34.1" = major ++ "." ++ minor ++ "." ++ patch
    /\ numeral major = true /\ numeral minor = true /\ numeral patch = true.
Proof.
  apply (extractVersion_shape "git version 2.34.1" "2.34.1").
  reflexivity.
Defined.

Lemma extractVersion_finds_witness :
  SystemCheck.extractVersion
    ("git version " ++ ("2" ++ "." ++ "34" ++ "." ++ "1") ++ " (Apple Git-137)")
  = Some ("2" ++ "." ++ "34" ++ "." ++ "1").
Proof.
  apply (extractVersion_finds "git version " "2" "34" "1" " (Apple Git-137)");
    reflexivity.
Defined.

Lemma compareVersions_antisymmetric_witness :
  DecimalNumbers.compareVersions "2.34.1" "2.34.1" = 0%Z
  /\ DecimalNumbers.compareVersions "2.25.0" "2.34.1"
     = (- DecimalNumbers.compareVersions "2.34.1" "2.25.0")%Z.
Proof.
  apply (compareVersions_antisymmetric Z DecimalNumbers.Number 0%Z
           DecimalNumbers.isFalsy Z.gtb Z.ltb Z_gtb_ltb Z_ltb_asym
           "2.34.1" "2.25.0").
Defined.

Lemma compareVersions_trailing_zero_witness :
  DecimalNumbers.compareVersions ("2.25" ++ ".0") "2.25" = 0%Z.
Proof.
  apply (compareVersions_trailing_zero Z DecimalNumbers.Number 0%Z
           DecimalNumbers.isFalsy Z.gtb Z.ltb Z_gtb_ltb Z_ltb_asym "2.25").
  reflexivity.
Defined.
